(** * Windows service controller (service_windows.go)

    A shallow embedding of the lifecycle controller of the [service]
    package on Windows: the control-dispatch loop [Execute], the error
    slot read back by [Run], and the service-manager operations
    [Status], [Start], [Stop], [Restart], [Install] and [Uninstall] with
    their two polling waits.

    The program talks to three outside parties: the application's
    callbacks, the host's control channel and the service control
    manager.  Their answers are inputs of the model, and everything the
    program does to them is recorded, in program order, in a trace.

    Standing assumptions: a callback of the application returns; the
    host reads every status it is sent and never closes the request
    channel; calls of the manager return.  Mutexes, handles and their
    release are kept only as far as they show in the order of calls. *)

From Stdlib Require Import ZArith List String Ascii Bool Lia DecimalString.
Import ListNotations.
Local Open Scope Z_scope.

(** ** Errors

    A Go [error] is either [nil] or a value; [option error] is used
    wherever the source has an [error], with [None] for [nil]. *)

Inductive error : Type :=
| Errno (code : Z) (text : string)
    (* syscall.Errno: the numeric code, and the text Windows renders for it *)
| ErrNotInstalled
    (* the package's sentinel for a missing instance; see [Error] *)
| ErrorString (msg : string).
    (* errors.New / fmt.Errorf, and any error of the application *)

(** [err.Error()].  [ErrNotInstalled] is declared with the Service
    interface, outside this file, by [errors.New]; this file only
    returns it, and no code here reads its text. *)
Definition Error (e : error) : string :=
  match e with
  | Errno _ text => text
  | ErrNotInstalled => "the service is not installed"
  | ErrorString msg => msg
  end.

Definition errnoServiceDoesNotExist : Z := 1060.

(** [errno, ok := err.(syscall.Errno); ok && errno == errnoServiceDoesNotExist] *)
Definition isServiceDoesNotExist (e : error) : bool :=
  match e with
  | Errno code _ => code =? errnoServiceDoesNotExist
  | _ => false
  end.

(** ** The host's service protocol (golang.org/x/sys/windows/svc) *)

Module svc.
(* State *)
Definition Stopped : Z := 1.
Definition StartPending : Z := 2.
Definition StopPending : Z := 3.
Definition Running : Z := 4.
Definition ContinuePending : Z := 5.
Definition PausePending : Z := 6.
Definition Paused : Z := 7.
(* Cmd *)
Definition Stop : Z := 1.
Definition Pause : Z := 2.
Definition Continue : Z := 3.
Definition Interrogate : Z := 4.
Definition Shutdown : Z := 5.
(* Accepted *)
Definition AcceptStop : Z := 1.
Definition AcceptShutdown : Z := 4.

Record Status : Type := {
  State : Z;
  Accepts : Z;
  CheckPoint : Z;
  WaitHint : Z
}.

Record ChangeRequest : Type := {
  Cmd : Z;
  EventType : Z;
  CurrentStatus : Status
}.
End svc.

(** [svc.Status{State: s}] and [svc.Status{State: s, Accepts: a}]: the
    fields left out of a composite literal are zero. *)
Definition StatusLit (s a : Z) : svc.Status :=
  {| svc.State := s; svc.Accepts := a; svc.CheckPoint := 0; svc.WaitHint := 0 |}.

(** ** The application's callbacks

    [Interface] has [Start] and [Stop]; a client may also implement
    [Shutdowner].  Each callback is called at most once in a run, so its
    answer is a value; [i_Shutdown] is [None] when the type assertion
    [ws.i.(Shutdowner)] fails. *)

Record Interface : Type := {
  i_Start : option error;
  i_Stop : option error;
  i_Shutdown : option (option error)
}.

(** The fields of [Config] this file reads.  [Option] is a key-value
    bag with typed getters that take a default; the getters are declared
    with [Config], so the bag is kept as its three getters. *)
Record KeyValue : Type := {
  kv_string : string -> string -> string;
  kv_bool : string -> bool -> bool;
  kv_int : string -> Z -> Z
}.

Record Config : Type := {
  Name : string;
  DisplayName : string;
  Description : string;
  UserName : string;
  Arguments : list string;
  Dependencies : list string;
  Option : KeyValue;
  EnvVars : list (string * string)
}.

Record windowsService : Type := {
  i : Interface;
  cfg : Config;
  stopStartErr : option error
}.

Definition setError (err : option error) (ws : windowsService) : windowsService :=
  {| i := i ws; cfg := cfg ws; stopStartErr := err |}.

Definition getError (ws : windowsService) : option error := stopStartErr ws.

(** ** The dispatch loop

    What [Execute] does, in order: sends on [changes], receives from
    [r], calls of the application and writes of the error slot. *)

Inductive Event : Type :=
| Emit (s : svc.Status)
| Recv (c : svc.ChangeRequest)
| CallStart
| CallStop
| CallShutdown
| SetError (e : option error)
| HostRun (name : string)
| HostReturn (runErr : option error)
| AwaitInterrupt.

(** [Execute] either returns its pair to the host, or is left blocked in
    [<-r] once the requests it was given are used up. *)
Inductive Outcome : Type :=
| Returned (svcSpecificEC : bool) (exitCode : Z)
| Blocked.

Record Exec : Type := {
  ex_trace : list Event;
  ex_ws : windowsService;
  ex_out : Outcome
}.

Definition halt (ws : windowsService) (o : Outcome) : Exec :=
  {| ex_trace := []; ex_ws := ws; ex_out := o |}.

Definition tell (es : list Event) (x : Exec) : Exec :=
  {| ex_trace := es ++ ex_trace x; ex_ws := ex_ws x; ex_out := ex_out x |}.

(** [ws.setError(err); return true, code] *)
Definition fail_with (ws : windowsService) (err : error) (code : Z) : Exec :=
  tell [SetError (Some err)] (halt (setError (Some err) ws) (Returned true code)).

Definition cmdsAccepted : Z := Z.lor svc.AcceptStop svc.AcceptShutdown.

(** The labelled [for] of [Execute]: one iteration per request. *)
Fixpoint loop (ws : windowsService) (r : list svc.ChangeRequest) : Exec :=
  match r with
  | [] => halt ws Blocked
  | c :: r' =>
    tell [Recv c]
      (if svc.Cmd c =? svc.Interrogate then
         tell [Emit (svc.CurrentStatus c)] (loop ws r')
       else if svc.Cmd c =? svc.Stop then
         tell [Emit (StatusLit svc.StopPending 0); CallStop]
           match i_Stop (i ws) with
           | Some err => fail_with ws err 2
           | None => halt ws (Returned false 0)
           end
       else if svc.Cmd c =? svc.Shutdown then
         tell [Emit (StatusLit svc.StopPending 0)]
           match i_Shutdown (i ws) with
           | Some res =>
             tell [CallShutdown]
               match res with
               | Some err => fail_with ws err 2
               | None => halt ws (Returned false 0)
               end
           | None =>
             tell [CallStop]
               match i_Stop (i ws) with
               | Some err => fail_with ws err 2
               | None => halt ws (Returned false 0)
               end
           end
       else loop ws r')
  end.

Definition Execute (ws : windowsService) (r : list svc.ChangeRequest) : Exec :=
  tell [Emit (StatusLit svc.StartPending 0); CallStart]
    match i_Start (i ws) with
    | Some err => fail_with ws err 1
    | None => tell [Emit (StatusLit svc.Running cmdsAccepted)] (loop ws r)
    end.

(** A channel that never runs dry: the first [n] requests of [r]. *)
Definition firstn_requests (r : nat -> svc.ChangeRequest) (n : nat) : list svc.ChangeRequest :=
  map r (seq 0 n).

(** ** Run

    [svc.Run] belongs to the host.  It either fails before it dispatches
    ([host_requests = None]) or calls [Execute] once, on the context it
    chooses, with a channel that delivers [host_requests]; it returns
    [host_runErr] once [Execute] has returned, and not before.  In the
    foreground there is no host: [host_interrupt] says whether the
    interrupt signal ever arrives. *)

Record Host : Type := {
  interactive : bool;
  host_requests : option (list svc.ChangeRequest);
  host_runErr : option error;
  host_interrupt : bool
}.

Inductive RunResult : Type :=
| RunReturns (err : option error)
| RunBlocks.

Record RunExec : Type := {
  run_trace : list Event;
  run_ws : windowsService;
  run_result : RunResult
}.

(** [runErr := svc.Run(ws.Name, ws)]: the state after it, what happened
    meanwhile, and [runErr] unless the handler never returned. *)
Definition svc_Run (h : Host) (ws : windowsService)
  : list Event * windowsService * option (option error) :=
  match host_requests h with
  | None => ([HostRun (Name (cfg ws)); HostReturn (host_runErr h)], ws, Some (host_runErr h))
  | Some r =>
    let x := Execute ws r in
    match ex_out x with
    | Returned _ _ =>
      (HostRun (Name (cfg ws)) :: ex_trace x ++ [HostReturn (host_runErr h)],
       ex_ws x, Some (host_runErr h))
    | Blocked => (HostRun (Name (cfg ws)) :: ex_trace x, ex_ws x, None)
    end
  end.

Definition Run (h : Host) (ws : windowsService) : RunExec :=
  let ws := setError None ws in
  if negb (interactive h) then
    let '(tr, ws', ret) := svc_Run h ws in
    {| run_trace := SetError None :: tr;
       run_ws := ws';
       run_result :=
         match ret with
         | None => RunBlocks
         | Some runErr =>
           match getError ws' with
           | Some startStopErr => RunReturns (Some startStopErr)
           | None =>
             match runErr with
             | Some e => RunReturns (Some e)
             | None => RunReturns None
             end
           end
         end |}
  else
    match i_Start (i ws) with
    | Some err =>
      {| run_trace := [SetError None; CallStart]; run_ws := ws;
         run_result := RunReturns (Some err) |}
    | None =>
      if host_interrupt h then
        {| run_trace := [SetError None; CallStart; AwaitInterrupt; CallStop];
           run_ws := ws; run_result := RunReturns (i_Stop (i ws)) |}
      else
        {| run_trace := [SetError None; CallStart; AwaitInterrupt];
           run_ws := ws; run_result := RunBlocks |}
    end.

(** ** Durations and small library functions

    [time.Duration] is an int64 count of nanoseconds; products and sums
    wrap around as Go's do. *)

Definition Duration : Type := Z.

Definition wrap64 (z : Z) : Z := (z + 2 ^ 63) mod 2 ^ 64 - 2 ^ 63.

Definition dmul (a b : Duration) : Duration := wrap64 (a * b).
Definition dadd (a b : Duration) : Duration := wrap64 (a + b).

Definition Millisecond : Duration := 1000000.
Definition Second : Duration := 1000000000.

(** [strings.Contains] *)
Fixpoint Contains (s substr : string) : bool :=
  if prefix substr s then true
  else match s with
       | EmptyString => false
       | String _ s' => Contains s' substr
       end.

(** [strconv.Atoi] where [int] has 64 bits: an optional sign, then one
    or more decimal digits, the value within the range of [int]. *)
Definition digit_of (c : ascii) : option Z :=
  let n := Z.of_nat (nat_of_ascii c) in
  if (48 <=? n) && (n <=? 57) then Some (n - 48) else None.

Fixpoint digits (s : string) (acc : Z) : option Z :=
  match s with
  | EmptyString => Some acc
  | String c s' =>
    match digit_of c with
    | Some d => digits s' (10 * acc + d)
    | None => None
    end
  end.

Definition Atoi (s : string) : option Z :=
  let '(neg, body) :=
    match s with
    | String "-"%char s' => (true, s')
    | String "+"%char s' => (false, s')
    | _ => (false, s)
    end in
  match body with
  | EmptyString => None
  | _ =>
    match digits body 0 with
    | None => None
    | Some n =>
      let v := if neg then - n else n in
      if (- 2 ^ 63 <=? v) && (v <=? 2 ^ 63 - 1) then Some v else None
    end
  end.

(** [errors.Is(err, syscall.ERROR_FILE_NOT_FOUND)] on an unwrapped error *)
Definition ERROR_FILE_NOT_FOUND : Z := 2.

Definition is_ERROR_FILE_NOT_FOUND (e : error) : bool :=
  match e with
  | Errno code _ => code =? ERROR_FILE_NOT_FOUND
  | _ => false
  end.

(** ** The service control manager

    Every request the program makes of Windows is a [Call]; the [World]
    answers it, knowing the calls made so far. *)

Module mgr.
Definition StartManual : Z := 3.
Definition StartAutomatic : Z := 2.
Definition StartDisabled : Z := 4.
Definition NoAction : Z := 0.
Definition ServiceRestart : Z := 1.
Definition ComputerReboot : Z := 2.

Record Config : Type := {
  DisplayName : string;
  Description : string;
  StartType : Z;
  ServiceStartName : string;
  Password : string;
  Dependencies : list string;
  DelayedAutoStart : bool;
  ServiceType : Z
}.
End mgr.

Module windows.
Definition SERVICE_WIN32_OWN_PROCESS : Z := 16.
Definition SERVICE_INTERACTIVE_PROCESS : Z := 256.
End windows.

Module eventlog.
Definition Error : Z := 1.
Definition Warning : Z := 2.
Definition Info : Z := 4.
End eventlog.

Inductive Call : Type :=
| OpenSCManager                    (* lowPrivMgr *)
| OpenServiceLow (name : string)   (* lowPrivSvc *)
| MgrConnect
| MgrDisconnect
| MgrOpenService (name : string)
| SvcClose
| SvcControl (cmd : Z)
| SvcQuery
| SvcStart
| SvcDelete
| CreateService (name exepath : string) (c : mgr.Config) (args : list string)
| SetRecoveryActions (actionType : Z) (delay : Duration) (resetPeriod : Z)
| EventlogInstall (name : string) (events : Z)
| EventlogRemove (name : string)
| ExecPath
| RegOpenKey (path : string)
| RegGetStringValue (name : string)
| RegCreateKey (path : string)
| RegSetStringsValue (name : string) (value : list string)
| RegKeyClose
| TimeAfter (d : Duration)
| NewTicker (d : Duration)
| TickerStop
| TickC                            (* the select took <-tick.C *)
| TimeoutC.                        (* the select took <-timeout *)

(** [w_ticks h deadline interval] is the number of times the [select]
    of a wait takes its ticker case before it takes the timeout case,
    should the wait last that long: a timer fires once and a ticker with
    a positive period ticks finitely often before that. *)
Record World : Type := {
  w_err : list Call -> Call -> option error;
  w_status : list Call -> Call -> error + svc.Status;
  w_string : list Call -> Call -> error + string;
  w_ticks : list Call -> Duration -> Duration -> nat;
  w_ParseDuration : string -> option Duration
}.

(** An ideal clock: ticks at the multiples of the period, queries that
    take no time, and the timeout winning when both are due. *)
Definition ideal_ticks (deadline interval : Duration) : nat :=
  if (deadline <=? 0) || (interval <=? 0) then 0%nat
  else Z.to_nat ((deadline - 1) / interval).

(** Programs over the manager: the calls so far in, the result and the
    calls so far out. *)
Definition M (A : Type) : Type := list Call -> A * list Call.

Definition ret {A : Type} (a : A) : M A := fun h => (a, h).

Definition bind {A B : Type} (m : M A) (f : A -> M B) : M B :=
  fun h => let '(a, h') := m h in f a h'.

Declare Scope prog_scope.
Delimit Scope prog_scope with prog.
Notation "x <- m ;; k" := (bind m (fun x => k))
  (at level 61, m at next level, right associativity) : prog_scope.
Notation "m ;;; k" := (bind m (fun _ => k))
  (at level 61, right associativity) : prog_scope.
Local Open Scope prog_scope.

(** A call whose result the program does not look at. *)
Definition do_ (c : Call) : M unit := fun h => (tt, h ++ [c]).

(** [defer f()] at the head of what remains of a function body. *)
Definition defer {A : Type} (f : M unit) (body : M A) : M A :=
  a <- body ;; f ;;; ret a.

Definition result (A : Type) : Type := (A * option error)%type.

(** The package's own [Status] type, declared with the Service
    interface: the three values this file returns. *)
Inductive ServiceStatus : Type :=
| StatusUnknown
| StatusRunning
| StatusStopped.

(** [fmt]'s [%v] of a [svc.Status]: the fields in braces. *)
Definition show_Z (z : Z) : string := NilZero.string_of_int (Z.to_int z).

Definition show_Status (s : svc.Status) : string :=
  ("{" ++ show_Z (svc.State s) ++ " " ++ show_Z (svc.Accepts s) ++ " "
       ++ show_Z (svc.CheckPoint s) ++ " " ++ show_Z (svc.WaitHint s) ++ "}")%string.

(** ** Option keys and values of this platform *)

Definition StartType : string := "StartType".
Definition ServiceStartManual : string := "manual".
Definition ServiceStartDisabled : string := "disabled".
Definition ServiceStartAutomatic : string := "automatic".

Definition OnFailure : string := "OnFailure".
Definition OnFailureRestart : string := "restart".
Definition OnFailureReboot : string := "reboot".
Definition OnFailureNoAction : string := "noaction".
Definition OnFailureDelayDuration : string := "OnFailureDelayDuration".
Definition OnFailureResetPeriod : string := "OnFailureResetPeriod".

Section Manager.

Variable w : World.
Variable ws : windowsService.

Local Abbreviation name := (Name (cfg ws)).

Definition call_err (c : Call) : M (option error) :=
  fun h => (w_err w h c, h ++ [c]).

Definition call_status (c : Call) : M (error + svc.Status) :=
  fun h => (w_status w h c, h ++ [c]).

Definition call_string (c : Call) : M (error + string) :=
  fun h => (w_string w h c, h ++ [c]).

Definition lowPrivMgr : M (option error) := call_err OpenSCManager.

Definition lowPrivSvc (n : string) : M (option error) := call_err (OpenServiceLow n).

(** getStopTimeout fetches the time before windows will kill the service. *)
Definition getStopTimeout : M Duration :=
  let defaultTimeout := dmul Millisecond 20000 in
  e <- call_err (RegOpenKey "SYSTEM\CurrentControlSet\Control") ;;
  match e with
  | Some _ => ret defaultTimeout
  | None =>
    r <- call_string (RegGetStringValue "WaitToKillServiceTimeout") ;;
    match r with
    | inl _ => ret defaultTimeout
    | inr sv =>
      match Atoi sv with
      | None => ret defaultTimeout
      | Some v => ret (dmul Millisecond v)
      end
    end
  end.

(** [timeout := time.After(getStopTimeout() + timeDuration*2);
    tick := time.NewTicker(timeDuration); defer tick.Stop()],
    then the body with the number of ticks the [select] will take. *)
Definition with_timer {A : Type} (timeDuration : Duration) (body : nat -> M A) : M A :=
  kill <- getStopTimeout ;;
  let deadline := dadd kill (dmul timeDuration 2) in
  do_ (TimeAfter deadline) ;;;
  do_ (NewTicker timeDuration) ;;;
  defer (do_ TickerStop)
    (fun h => body (w_ticks w h deadline timeDuration) h).

(** [for status.State != svc.Stopped { select { ... } }; return nil] *)
Fixpoint stopWait_loop (ticks : nat) (status : svc.Status) : M (option error) :=
  if negb (svc.State status =? svc.Stopped) then
    match ticks with
    | S ticks' =>
      do_ TickC ;;;
      r <- call_status SvcQuery ;;
      match r with
      | inl err => ret (Some err)
      | inr status' => stopWait_loop ticks' status'
      end
    | O =>
      do_ TimeoutC ;;;
      ret (Some (ErrorString ("stop service " ++ name ++ " timeout")%string))
    end
  else ret None.

Definition stopWait : M (option error) :=
  r <- call_status (SvcControl svc.Stop) ;;
  match r with
  | inl err => ret (Some err)
  | inr status =>
    with_timer (dmul Millisecond 50) (fun ticks => stopWait_loop ticks status)
  end.

Definition Status : M (result ServiceStatus) :=
  e <- lowPrivMgr ;;
  match e with
  | Some err => ret (StatusUnknown, Some err)
  | None =>
    defer (do_ MgrDisconnect)
      (e <- lowPrivSvc name ;;
       match e with
       | Some err =>
         if isServiceDoesNotExist err then ret (StatusUnknown, Some ErrNotInstalled)
         else ret (StatusUnknown, Some err)
       | None =>
         defer (do_ SvcClose)
           (r <- call_status SvcQuery ;;
            match r with
            | inl err => ret (StatusUnknown, Some err)
            | inr status =>
              let s := svc.State status in
              if (s =? svc.StartPending) || (s =? svc.Running) then
                ret (StatusRunning, None)
              else if (s =? svc.PausePending) || (s =? svc.Paused)
                      || (s =? svc.ContinuePending) || (s =? svc.StopPending)
                      || (s =? svc.Stopped) then
                ret (StatusStopped, None)
              else
                ret (StatusUnknown,
                     Some (ErrorString ("unknown status " ++ show_Status status)%string))
            end)
       end)
  end.

Definition Start : M (option error) :=
  e <- lowPrivMgr ;;
  match e with
  | Some err => ret (Some err)
  | None =>
    defer (do_ MgrDisconnect)
      (e <- lowPrivSvc name ;;
       match e with
       | Some err => ret (Some err)
       | None => defer (do_ SvcClose) (call_err SvcStart)
       end)
  end.

Definition Stop : M (option error) :=
  e <- lowPrivMgr ;;
  match e with
  | Some err => ret (Some err)
  | None =>
    defer (do_ MgrDisconnect)
      (e <- lowPrivSvc name ;;
       match e with
       | Some err => ret (Some err)
       | None => defer (do_ SvcClose) stopWait
       end)
  end.

Definition Restart : M (option error) :=
  e <- lowPrivMgr ;;
  match e with
  | Some err => ret (Some err)
  | None =>
    defer (do_ MgrDisconnect)
      (e <- lowPrivSvc name ;;
       match e with
       | Some err => ret (Some err)
       | None =>
         defer (do_ SvcClose)
           (e <- stopWait ;;
            match e with
            | Some err => ret (Some err)
            | None => call_err SvcStart
            end)
       end)
  end.

(** The [for { select { ... } }] of uninstallWait. *)
Fixpoint uninstallWait_loop (ticks : nat) : M (option error) :=
  match ticks with
  | S ticks' =>
    do_ TickC ;;;
    e <- call_err (MgrOpenService name) ;;
    match e with
    | Some err =>
      if isServiceDoesNotExist err then ret None
      else ret (Some (ErrorString ("error open service " ++ name)%string))
    | None => do_ SvcClose ;;; uninstallWait_loop ticks'
    end
  | O =>
    do_ TimeoutC ;;;
    ret (Some (ErrorString ("delete service " ++ name ++ " timeout")%string))
  end.

Definition uninstallWait : M (option error) :=
  with_timer (dmul Millisecond 100) uninstallWait_loop.

Definition Uninstall : M (option error) :=
  e <- Stop ;;
  match e with
  | Some err => ret (Some err)
  | None =>
    e <- call_err MgrConnect ;;
    match e with
    | Some err => ret (Some err)
    | None =>
      defer (do_ MgrDisconnect)
        (e <- call_err (MgrOpenService name) ;;
         match e with
         | Some err =>
           if isServiceDoesNotExist err then ret None
           else ret (Some (ErrorString ("error open service " ++ name)%string))
         | None =>
           defer (do_ SvcClose)
             (e <- call_err SvcDelete ;;
              match e with
              | Some err => ret (Some err)
              | None =>
                e <- call_err (EventlogRemove name) ;;
                match e with
                | Some err =>
                  if negb (is_ERROR_FILE_NOT_FOUND err) then
                    ret (Some (ErrorString
                                 ("RemoveEventLogSource() failed: " ++ Error err)%string))
                  else uninstallWait
                | None => uninstallWait
                end
              end)
         end)
    end
  end.

Definition setEnvironmentVariablesInRegistry : M (option error) :=
  if (List.length (EnvVars (cfg ws)) =? 0)%nat then ret None
  else
    e <- call_err (RegCreateKey ("SYSTEM\CurrentControlSet\Services\" ++ name)%string) ;;
    match e with
    | Some err =>
      ret (Some (ErrorString
                   ("failed creating env var registry key, err = " ++ Error err)%string))
    | None =>
      let envStrings :=
        map (fun kv => (fst kv ++ "=" ++ snd kv)%string) (EnvVars (cfg ws)) in
      e <- call_err (RegSetStringsValue "Environment" envStrings) ;;
      match e with
      | Some err =>
        ret (Some (ErrorString
                     ("failed setting env var registry key, err = " ++ Error err)%string))
      | None =>
        e <- call_err RegKeyClose ;;
        match e with
        | Some err =>
          ret (Some (ErrorString
                       ("failed closing env var registry key, err = " ++ Error err)%string))
        | None => ret None
        end
      end
    end.

(** The tail of Install, from [defer s.Close()] on. *)
Definition Install_eventlog : M (option error) :=
  defer (do_ SvcClose)
    (e <- call_err (EventlogInstall name
                      (Z.lor (Z.lor eventlog.Error eventlog.Warning) eventlog.Info)) ;;
     match e with
     | Some err =>
       if negb (Contains (Error err) "exists") then
         call_err SvcDelete ;;;
         ret (Some (ErrorString ("SetupEventLogSource() failed: " ++ Error err)%string))
       else ret None
     | None => ret None
     end).

(** The middle of Install, between [defer m.Disconnect()] and
    [defer s.Close()]: the entry is created and its recovery set. *)
Definition Install_create (exepath : string) : M (option error) :=
  e <- setEnvironmentVariablesInRegistry ;;
  match e with
  | Some err => ret (Some err)
  | None =>
    e <- call_err (MgrOpenService name) ;;
    match e with
    | None =>
      do_ SvcClose ;;;
      ret (Some (ErrorString ("service " ++ name ++ " already exists")%string))
    | Some _ =>
      let opt := Option (cfg ws) in
      let st := kv_string opt StartType ServiceStartAutomatic in
      let startType :=
        if String.eqb st ServiceStartAutomatic then mgr.StartAutomatic
        else if String.eqb st ServiceStartManual then mgr.StartManual
        else if String.eqb st ServiceStartDisabled then mgr.StartDisabled
        else 0 in
      let serviceType :=
        if kv_bool opt "Interactive" false
        then Z.lor windows.SERVICE_WIN32_OWN_PROCESS
                   windows.SERVICE_INTERACTIVE_PROCESS
        else windows.SERVICE_WIN32_OWN_PROCESS in
      e <- call_err
             (CreateService name exepath
                {| mgr.DisplayName := DisplayName (cfg ws);
                   mgr.Description := Description (cfg ws);
                   mgr.StartType := startType;
                   mgr.ServiceStartName := UserName (cfg ws);
                   mgr.Password := kv_string opt "Password" "";
                   mgr.Dependencies := Dependencies (cfg ws);
                   mgr.DelayedAutoStart := kv_bool opt "DelayedAutoStart" false;
                   mgr.ServiceType := serviceType |}
                (Arguments (cfg ws))) ;;
      match e with
      | Some err => ret (Some err)
      | None =>
        let onFailure := kv_string opt OnFailure "" in
        if negb (String.eqb onFailure "") then
          let delay :=
            match w_ParseDuration w (kv_string opt OnFailureDelayDuration "1s") with
            | Some d => d
            | None => dmul 1 Second
            end in
          let actionType :=
            if String.eqb onFailure OnFailureReboot then mgr.ComputerReboot
            else if String.eqb onFailure OnFailureRestart then mgr.ServiceRestart
            else if String.eqb onFailure OnFailureNoAction then mgr.NoAction
            else mgr.ServiceRestart in
          call_err (SetRecoveryActions actionType delay
                      (kv_int opt OnFailureResetPeriod 10 mod 2 ^ 32))
        else ret None
      end
    end
  end.

Definition Install : M (option error) :=
  r <- call_string ExecPath ;;
  match r with
  | inl err => ret (Some err)
  | inr exepath =>
    e <- call_err MgrConnect ;;
    match e with
    | Some err => ret (Some err)
    | None =>
      defer (do_ MgrDisconnect)
        (e <- Install_create exepath ;;
         match e with
         | Some err => ret (Some err)
         | None => Install_eventlog
         end)
    end
  end.

End Manager.

(** ** Reading traces of the dispatch loop *)

Definition emissions (tr : list Event) : list svc.Status :=
  flat_map (fun e => match e with Emit s => [s] | _ => [] end) tr.

Definition received (tr : list Event) : list svc.ChangeRequest :=
  flat_map (fun e => match e with Recv c => [c] | _ => [] end) tr.

Definition is_Emit_state (s : Z) (e : Event) : bool :=
  match e with Emit st => svc.State st =? s | _ => false end.
Definition is_CallStart (e : Event) : bool :=
  match e with CallStart => true | _ => false end.
Definition is_CallStop (e : Event) : bool :=
  match e with CallStop => true | _ => false end.
Definition is_CallShutdown (e : Event) : bool :=
  match e with CallShutdown => true | _ => false end.

Definition occurrences (p : Event -> bool) (tr : list Event) : nat :=
  List.length (filter p tr).

(** A request that ends the loop. *)
Definition terminating (c : svc.ChangeRequest) : bool :=
  (svc.Cmd c =? svc.Stop) || (svc.Cmd c =? svc.Shutdown).

Definition idle (c : svc.ChangeRequest) : bool := negb (terminating c).

(** The requests in front of the first terminating one, and that one. *)
Fixpoint before_terminating (r : list svc.ChangeRequest) : list svc.ChangeRequest :=
  match r with
  | [] => []
  | c :: r' => if terminating c then [] else c :: before_terminating r'
  end.

Definition first_terminating (r : list svc.ChangeRequest) : option svc.ChangeRequest :=
  find terminating r.

(** What the loop does with requests that do not end it. *)
Definition idle_events (c : svc.ChangeRequest) : list Event :=
  if svc.Cmd c =? svc.Interrogate then [Recv c; Emit (svc.CurrentStatus c)]
  else [Recv c].

Definition idle_trace (r : list svc.ChangeRequest) : list Event :=
  flat_map idle_events r.

Definition echoes (r : list svc.ChangeRequest) : list svc.Status :=
  map svc.CurrentStatus (filter (fun c => svc.Cmd c =? svc.Interrogate) r).

(** The callback a terminating request reaches, and its answer. *)
Definition stop_call (ws : windowsService) (c : svc.ChangeRequest) : Event :=
  if svc.Cmd c =? svc.Stop then CallStop
  else match i_Shutdown (i ws) with Some _ => CallShutdown | None => CallStop end.

Definition stop_answer (ws : windowsService) (c : svc.ChangeRequest) : option error :=
  if svc.Cmd c =? svc.Stop then i_Stop (i ws)
  else match i_Shutdown (i ws) with Some res => res | None => i_Stop (i ws) end.

Definition error_events (e : option error) : list Event :=
  match e with Some err => [SetError (Some err)] | None => [] end.






(** Sample clients and requests. *)
Definition sample_Config : Config :=
  {| Name := "agent"; DisplayName := "Agent"; Description := "";
     UserName := ""; Arguments := []; Dependencies := [];
     Option := {| kv_string := fun _ d => d; kv_bool := fun _ d => d;
                  kv_int := fun _ d => d |};
     EnvVars := [] |}.

Definition client (start stop : option error) (shutdown : option (option error))
  : windowsService :=
  {| i := {| i_Start := start; i_Stop := stop; i_Shutdown := shutdown |};
     cfg := sample_Config; stopStartErr := None |}.

Definition request (cmd : Z) (current : svc.Status) : svc.ChangeRequest :=
  {| svc.Cmd := cmd; svc.EventType := 0; svc.CurrentStatus := current |}.

Definition running_status : svc.Status := StatusLit svc.Running cmdsAccepted.

(** A lifecycle callback of this run answered with an error. *)
Definition callback_failed (ws : windowsService) (r : list svc.ChangeRequest) : Prop :=
  match i_Start (i ws) with
  | Some _ => True
  | None =>
    match first_terminating r with
    | Some c => stop_answer ws c <> None
    | None => False
    end
  end.

(** The callback a Shutdown request reaches, and its answer. *)
Definition shutdown_call (ws : windowsService) : Event :=
  match i_Shutdown (i ws) with Some _ => CallShutdown | None => CallStop end.

Definition shutdown_answer (ws : windowsService) : option error :=
  match i_Shutdown (i ws) with Some res => res | None => i_Stop (i ws) end.

(** ** The convergence wait of the design

    The design describes both waits as one primitive: poll on every
    tick, stop at the first poll that finds the end state, give up when
    the timeout fires.  [Waits poll timeout_err n h res h'] is that
    primitive over the calls of this model, with [n] ticks available
    and a poll that may also fail: it starts with the calls [h] made,
    ends with [h'] made, and returns [res]. *)

Inductive Poll : Type :=
| Converged
| Failed (err : error)
| Pending.

Section Waiter.

Variable poll : list Call -> Poll * list Call.
Variable timeout_err : error.

Inductive Waits : nat -> list Call -> option error -> list Call -> Prop :=
| Waits_timeout h :
    Waits 0 h (Some timeout_err) (h ++ [TimeoutC])
| Waits_converged n h h' :
    poll (h ++ [TickC]) = (Converged, h') ->
    Waits (S n) h None h'
| Waits_failed n h err h' :
    poll (h ++ [TickC]) = (Failed err, h') ->
    Waits (S n) h (Some err) h'
| Waits_pending n h h1 res h' :
    poll (h ++ [TickC]) = (Pending, h1) ->
    Waits n h1 res h' ->
    Waits (S n) h res h'.

End Waiter.

(** The poll of the stop wait: one query, looking at the raw state. *)
Definition stop_poll (w : World) (h : list Call) : Poll * list Call :=
  (match w_status w h SvcQuery with
   | inl err => Failed err
   | inr status => if svc.State status =? svc.Stopped then Converged else Pending
   end,
   h ++ [SvcQuery]).

(** The poll of the uninstall wait: one open, closed again if it works. *)
Definition open_poll (w : World) (name : string) (h : list Call) : Poll * list Call :=
  match w_err w h (MgrOpenService name) with
  | Some err =>
    (if isServiceDoesNotExist err then Converged
     else Failed (ErrorString ("error open service " ++ name)%string),
     h ++ [MgrOpenService name])
  | None => (Pending, h ++ [MgrOpenService name; SvcClose])
  end.

Definition stop_timeout_error (ws : windowsService) : error :=
  ErrorString ("stop service " ++ Name (cfg ws) ++ " timeout")%string.

Definition delete_timeout_error (ws : windowsService) : error :=
  ErrorString ("delete service " ++ Name (cfg ws) ++ " timeout")%string.

(** The wait as the design words it: it ends in success or in the
    timeout error, and in nothing else. *)
Definition two_outcomes (timeout_err : error) (res : option error) : Prop :=
  res = None \/ res = Some timeout_err.

(** ** Reading traces of the manager *)


Definition is_SvcStart (c : Call) : bool :=
  match c with SvcStart => true | _ => false end.
Definition is_SvcDelete (c : Call) : bool :=
  match c with SvcDelete => true | _ => false end.
Definition is_SvcQuery (c : Call) : bool :=
  match c with SvcQuery => true | _ => false end.
Definition is_TickC (c : Call) : bool :=
  match c with TickC => true | _ => false end.
Definition is_MgrOpenService (c : Call) : bool :=
  match c with MgrOpenService _ => true | _ => false end.
Definition is_CreateService (c : Call) : bool :=
  match c with CreateService _ _ _ _ => true | _ => false end.

Definition calls (p : Call -> bool) (h : list Call) : nat :=
  List.length (filter p h).

(** ** Sample worlds *)

(** Every call succeeds, the service is stopped, the registry has no
    kill timeout, the clock is ideal. *)
Definition calm : World :=
  {| w_err := fun _ _ => None;
     w_status := fun _ _ => inr (StatusLit svc.Stopped 0);
     w_string := fun _ _ => inl (Errno 2 "The system cannot find the file specified.");
     w_ticks := fun _ => ideal_ticks;
     w_ParseDuration := fun _ => None |}.

(** The registry sets the kill timeout to [ms]; the service answers the
    stop control and the first [k] queries with [busy], later ones with
    Stopped. *)
Definition stops_after (ms : string) (k : nat) (busy : svc.Status) : World :=
  {| w_err := fun _ _ => None;
     w_status := fun h c =>
       match c with
       | SvcQuery =>
         if (k <=? calls is_SvcQuery h)%nat then inr (StatusLit svc.Stopped 0)
         else inr busy
       | _ => inr busy
       end;
     w_string := fun _ c =>
       match c with
       | RegGetStringValue _ => inr ms
       | _ => inr "C:\agent\agent.exe"%string
       end;
     w_ticks := fun _ => ideal_ticks;
     w_ParseDuration := fun _ => None |}.

(** The stop control is accepted, the queries after it fail. *)
Definition query_fails : World :=
  {| w_err := fun _ _ => None;
     w_status := fun _ c =>
       match c with
       | SvcQuery => inl (Errno 1726 "The remote procedure call failed.")
       | _ => inr running_status
       end;
     w_string := w_string calm;
     w_ticks := fun _ => ideal_ticks;
     w_ParseDuration := fun _ => None |}.

(** The service is installed and not running: the stop control is
    refused. *)
Definition not_active : World :=
  {| w_err := fun _ _ => None;
     w_status := fun _ c =>
       match c with
       | SvcControl _ => inl (Errno 1062 "The service has not been started.")
       | _ => inr (StatusLit svc.Stopped 0)
       end;
     w_string := w_string calm;
     w_ticks := fun _ => ideal_ticks;
     w_ParseDuration := fun _ => None |}.

(** The service stops at once; the start after it is refused. *)
Definition start_refused : World :=
  {| w_err := fun _ c =>
       match c with
       | SvcStart => Some (Errno 1058 "The service cannot be started.")
       | _ => None
       end;
     w_status := w_status calm;
     w_string := w_string calm;
     w_ticks := fun _ => ideal_ticks;
     w_ParseDuration := fun _ => None |}.

(** Once deleted, the entry is gone from the [k]-th tick on. *)
Definition entry_gone_after (k : nat) : World :=
  {| w_err := fun h c =>
       match c with
       | MgrOpenService _ =>
         if (0 <? calls is_SvcDelete h)%nat && (k <=? calls is_TickC h)%nat
         then Some (Errno 1060 "The specified service does not exist as an installed service.")
         else None
       | _ => None
       end;
     w_status := w_status calm;
     w_string := w_string calm;
     w_ticks := fun _ => ideal_ticks;
     w_ParseDuration := fun _ => None |}.

(** No entry of that name yet; the event log answers registration with
    [reg]. *)
Definition fresh_host (reg : option error) : World :=
  {| w_err := fun _ c =>
       match c with
       | MgrOpenService _ =>
         Some (Errno 1060 "The specified service does not exist as an installed service.")
       | EventlogInstall _ _ => reg
       | _ => None
       end;
     w_status := w_status calm;
     w_string := fun _ _ => inr "C:\agent\agent.exe"%string;
     w_ticks := fun _ => ideal_ticks;
     w_ParseDuration := fun _ => None |}.

(** No entry of that name, for any way of opening it. *)
Definition not_installed : World :=
  {| w_err := fun _ c =>
       match c with
       | MgrOpenService _ | OpenServiceLow _ =>
         Some (Errno 1060 "The specified service does not exist as an installed service.")
       | _ => None
       end;
     w_status := w_status calm;
     w_string := w_string calm;
     w_ticks := fun _ => ideal_ticks;
     w_ParseDuration := fun _ => None |}.

Definition agent : windowsService := client None None None.

(** The uninstall as the design words it: a [Stop] that fails does not
    keep the entry from being deleted. *)
Definition Stop_is_best_effort (w : World) (ws : windowsService) : Prop :=
  forall err,
    fst (Stop w ws []) = Some err ->
    (1 <= calls is_SvcDelete (snd (Uninstall w ws [])))%nat.

(** ** Further readings of traces *)

Definition is_SetError (e : Event) : bool :=
  match e with SetError _ => true | _ => false end.
Definition is_HostRun (e : Event) : bool :=
  match e with HostRun _ => true | _ => false end.

(** The calls of the application and the writes of the slot, in order. *)
Definition is_callback (e : Event) : bool :=
  match e with
  | CallStart | CallStop | CallShutdown | SetError _ => true
  | _ => false
  end.

Definition callbacks (tr : list Event) : list Event := filter is_callback tr.

Definition is_OpenSCManager (c : Call) : bool :=
  match c with OpenSCManager => true | _ => false end.
Definition is_MgrDisconnect (c : Call) : bool :=
  match c with MgrDisconnect => true | _ => false end.
Definition is_SvcClose (c : Call) : bool :=
  match c with SvcClose => true | _ => false end.
Definition is_SvcControl (c : Call) : bool :=
  match c with SvcControl _ => true | _ => false end.
Definition is_EventlogInstall (c : Call) : bool :=
  match c with EventlogInstall _ _ => true | _ => false end.
Definition is_EventlogRemove (c : Call) : bool :=
  match c with EventlogRemove _ => true | _ => false end.
Definition is_SetRecoveryActions (c : Call) : bool :=
  match c with SetRecoveryActions _ _ _ => true | _ => false end.
Definition is_RegKeyClose (c : Call) : bool :=
  match c with RegKeyClose => true | _ => false end.

(** The calls a wait is made of: the registry reads of the kill
    timeout, the timer, the ticker and the polls of the stop wait. *)
Definition is_wait_call (c : Call) : bool :=
  match c with
  | RegOpenKey _ | RegGetStringValue _ | TimeAfter _ | NewTicker _
  | TickerStop | TickC | TimeoutC | SvcQuery => true
  | _ => false
  end.

(** The calls that change nothing in the manager. *)
Definition is_read_only (c : Call) : bool :=
  match c with
  | OpenSCManager | OpenServiceLow _ | SvcQuery | SvcClose | MgrDisconnect => true
  | _ => false
  end.

(** The calls on the registry. *)
Definition is_registry_call (c : Call) : bool :=
  match c with
  | RegOpenKey _ | RegGetStringValue _ | RegCreateKey _
  | RegSetStringsValue _ _ | RegKeyClose => true
  | _ => false
  end.

(** An optional sign followed by decimal digits only. *)
Definition is_digit (c : ascii) : bool :=
  match digit_of c with Some _ => true | None => false end.

Fixpoint all_digits (s : string) : bool :=
  match s with
  | EmptyString => true
  | String c s' => is_digit c && all_digits s'
  end.

Definition signed_digits (s : string) : bool :=
  match s with
  | String "-"%char s' => all_digits s'
  | String "+"%char s' => all_digits s'
  | _ => all_digits s
  end.

(** ** Further sample hosts and services *)

Definition service_host (r : list svc.ChangeRequest) (runErr : option error) : Host :=
  {| interactive := false; host_requests := Some r;
     host_runErr := runErr; host_interrupt := false |}.

Definition terminal (interrupt : bool) : Host :=
  {| interactive := true; host_requests := None;
     host_runErr := None; host_interrupt := interrupt |}.

(** A service with options and environment variables. *)
Definition configured (opts : list (string * string)) (env : list (string * string))
  : windowsService :=
  {| i := {| i_Start := None; i_Stop := None; i_Shutdown := None |};
     cfg := {| Name := "agent"; DisplayName := "Agent"; Description := "";
               UserName := ""; Arguments := []; Dependencies := [];
               Option :=
                 {| kv_string := fun k d =>
                      match find (fun kv => String.eqb (fst kv) k) opts with
                      | Some kv => snd kv
                      | None => d
                      end;
                    kv_bool := fun _ d => d;
                    kv_int := fun _ d => d |};
               EnvVars := env |};
     stopStartErr := None |}.

(** The answer to one kind of call is [err]; all else is as in
    [fresh_host None]. *)
Definition refusing (p : Call -> bool) (err : error) : World :=
  {| w_err := fun h c => if p c then Some err else w_err (fresh_host None) h c;
     w_status := w_status calm;
     w_string := fun _ _ => inr "C:\agent\agent.exe"%string;
     w_ticks := fun _ => ideal_ticks;
     w_ParseDuration := fun _ => None |}.

(** An entry of that name is installed and stopped; one kind of call is
    answered with [err]. *)
Definition installed_refusing (p : Call -> bool) (err : error) : World :=
  {| w_err := fun _ c => if p c then Some err else None;
     w_status := w_status calm;
     w_string := w_string calm;
     w_ticks := fun _ => ideal_ticks;
     w_ParseDuration := fun _ => None |}.

(** What an operation on the installed instance owes its handles: it
    asks for the manager once, gives back the manager when it got it,
    after everything else, and gives back the instance when it got
    that. *)
Definition releases_handles (w : World) (ws : windowsService)
           (h after : list Call) : Prop :=
  exists more,
    after = h ++ more
    /\ calls is_OpenSCManager more = 1%nat
    /\ calls is_MgrDisconnect more
       = match w_err w h OpenSCManager with None => 1%nat | Some _ => 0%nat end
    /\ calls is_SvcClose more
       = match w_err w h OpenSCManager,
               w_err w (h ++ [OpenSCManager]) (OpenServiceLow (Name (cfg ws))) with
         | None, None => 1%nat
         | _, _ => 0%nat
         end
    /\ (w_err w h OpenSCManager = None -> exists more', more = more' ++ [MgrDisconnect]).

(** ** The calls Install makes *)


(** [envStrings]: one "k=v" per variable. *)
Definition envStrings (ws : windowsService) : list string :=
  map (fun kv => (fst kv ++ "=" ++ snd kv)%string) (EnvVars (cfg ws)).

(** The three registry calls that store the environment. *)
Definition env_calls (ws : windowsService) : list Call :=
  [RegCreateKey ("SYSTEM\CurrentControlSet\Services\" ++ Name (cfg ws))%string;
   RegSetStringsValue "Environment" (envStrings ws);
   RegKeyClose].

(** The [mgr.Config] Install hands to CreateService. *)
Definition create_config (ws : windowsService) : mgr.Config :=
  let opt := Option (cfg ws) in
  let st := kv_string opt StartType ServiceStartAutomatic in
  {| mgr.DisplayName := DisplayName (cfg ws);
     mgr.Description := Description (cfg ws);
     mgr.StartType :=
       if String.eqb st ServiceStartAutomatic then mgr.StartAutomatic
       else if String.eqb st ServiceStartManual then mgr.StartManual
       else if String.eqb st ServiceStartDisabled then mgr.StartDisabled
       else 0;
     mgr.ServiceStartName := UserName (cfg ws);
     mgr.Password := kv_string opt "Password" "";
     mgr.Dependencies := Dependencies (cfg ws);
     mgr.DelayedAutoStart := kv_bool opt "DelayedAutoStart" false;
     mgr.ServiceType :=
       if kv_bool opt "Interactive" false
       then Z.lor windows.SERVICE_WIN32_OWN_PROCESS windows.SERVICE_INTERACTIVE_PROCESS
       else windows.SERVICE_WIN32_OWN_PROCESS |}.

Definition create_call (ws : windowsService) (exepath : string) : Call :=
  CreateService (Name (cfg ws)) exepath (create_config ws) (Arguments (cfg ws)).

(** The SetRecoveryActions call Install makes when OnFailure is set. *)
Definition recovery_call (w : World) (ws : windowsService) : Call :=
  let opt := Option (cfg ws) in
  let onFailure := kv_string opt OnFailure "" in
  SetRecoveryActions
    (if String.eqb onFailure OnFailureReboot then mgr.ComputerReboot
     else if String.eqb onFailure OnFailureRestart then mgr.ServiceRestart
     else if String.eqb onFailure OnFailureNoAction then mgr.NoAction
     else mgr.ServiceRestart)
    (match w_ParseDuration w (kv_string opt OnFailureDelayDuration "1s") with
     | Some d => d
     | None => dmul 1 Second
     end)
    (kv_int opt OnFailureResetPeriod 10 mod 2 ^ 32).

(** Install has got as far as asking for the entry by name, and there
    was none: [h3] is the calls made up to there. *)
Definition reaches_creation (w : World) (ws : windowsService)
           (h : list Call) (exepath : string) (h3 : list Call) : Prop :=
  w_string w h ExecPath = inr exepath
  /\ w_err w (h ++ [ExecPath]) MgrConnect = None
  /\ setEnvironmentVariablesInRegistry w ws (h ++ [ExecPath; MgrConnect]) = (None, h3)
  /\ w_err w h3 (MgrOpenService (Name (cfg ws))) <> None.

(** * Theorems *)

(** ** The dispatch loop *)

Lemma tell_trace es x : ex_trace (tell es x) = es ++ ex_trace x.
Proof. reflexivity. Qed.

Lemma tell_out es x : ex_out (tell es x) = ex_out x.
Proof. reflexivity. Qed.

Lemma tell_ws es x : ex_ws (tell es x) = ex_ws x.
Proof. reflexivity. Qed.

Lemma terminating_cases c :
  terminating c = false ->
  svc.Cmd c <> svc.Stop /\ svc.Cmd c <> svc.Shutdown.
Proof.
  unfold terminating. intros H.
  apply orb_false_iff in H. destruct H as [H1 H2].
  split; apply Z.eqb_neq; assumption.
Qed.

(** One iteration on a request that does not end the loop. *)
Lemma loop_idle_step ws c r :
  terminating c = false ->
  ex_trace (loop ws (c :: r)) = idle_events c ++ ex_trace (loop ws r)
  /\ ex_out (loop ws (c :: r)) = ex_out (loop ws r)
  /\ ex_ws (loop ws (c :: r)) = ex_ws (loop ws r).
Proof.
  intros H. apply terminating_cases in H. destruct H as [Hs Hd].
  cbn [loop]. unfold idle_events.
  destruct (Z.eqb_spec (svc.Cmd c) svc.Interrogate) as [Hi | Hi].
  - repeat split.
  - destruct (Z.eqb_spec (svc.Cmd c) svc.Stop) as [|_]; [contradiction|].
    destruct (Z.eqb_spec (svc.Cmd c) svc.Shutdown) as [|_]; [contradiction|].
    repeat split.
Qed.

Lemma loop_idle_prefix ws pre rest :
  forallb idle pre = true ->
  ex_trace (loop ws (pre ++ rest)) = idle_trace pre ++ ex_trace (loop ws rest)
  /\ ex_out (loop ws (pre ++ rest)) = ex_out (loop ws rest)
  /\ ex_ws (loop ws (pre ++ rest)) = ex_ws (loop ws rest).
Proof.
  induction pre as [| c pre IH]; intros H.
  - repeat split.
  - cbn [forallb] in H. apply andb_true_iff in H. destruct H as [Hc Hpre].
    unfold idle in Hc. apply negb_true_iff in Hc.
    destruct (IH Hpre) as (IHt & IHo & IHw).
    destruct (loop_idle_step ws c (pre ++ rest) Hc) as (St & So & Sw).
    change ((c :: pre) ++ rest) with (c :: pre ++ rest).
    rewrite St, So, Sw, IHt, IHo, IHw.
    unfold idle_trace. cbn [flat_map]. rewrite <- app_assoc. repeat split.
Qed.

(** One iteration on a request that ends the loop. *)
Lemma loop_terminating_step ws c r :
  terminating c = true ->
  ex_trace (loop ws (c :: r))
  = [Recv c; Emit (StatusLit svc.StopPending 0); stop_call ws c]
      ++ error_events (stop_answer ws c)
  /\ ex_out (loop ws (c :: r))
     = match stop_answer ws c with
       | Some _ => Returned true 2
       | None => Returned false 0
       end
  /\ ex_ws (loop ws (c :: r))
     = match stop_answer ws c with
       | Some err => setError (Some err) ws
       | None => ws
       end.
Proof.
  unfold terminating, stop_call, stop_answer. intros H. cbn [loop].
  destruct (Z.eqb_spec (svc.Cmd c) svc.Stop) as [Hs | Hs].
  - rewrite Hs. change (svc.Stop =? svc.Interrogate) with false. cbv iota.
    destruct (i_Stop (i ws)); repeat split.
  - cbn [orb] in H. rewrite H.
    apply Z.eqb_eq in H. rewrite H.
    change (svc.Shutdown =? svc.Interrogate) with false.
    change (svc.Shutdown =? svc.Stop) with false. cbv iota.
    destruct (i_Shutdown (i ws)) as [[err |] |]; [repeat split .. |].
    destruct (i_Stop (i ws)); repeat split.
Qed.

(** A request list splits at its first terminating request. *)
Lemma split_at_terminating r :
  forallb idle (before_terminating r) = true
  /\ match first_terminating r with
     | Some c => exists post, r = before_terminating r ++ c :: post /\ terminating c = true
     | None => r = before_terminating r
     end.
Proof.
  unfold first_terminating.
  induction r as [| c r [IH1 IH2]]; [split; reflexivity |].
  cbn [before_terminating find].
  destruct (terminating c) eqn:Hc.
  - split; [reflexivity |]. exists r. split; [reflexivity | assumption].
  - split.
    + cbn [forallb]. unfold idle at 1. rewrite Hc. exact IH1.
    + destruct (find terminating r) as [c' |].
      * destruct IH2 as (post & Hr & Hc'). exists post.
        split; [| assumption]. cbn [app]. f_equal. exact Hr.
      * f_equal. exact IH2.
Qed.

Lemma before_terminating_idle pre c post :
  forallb idle pre = true -> terminating c = true ->
  before_terminating (pre ++ c :: post) = pre
  /\ first_terminating (pre ++ c :: post) = Some c.
Proof.
  unfold first_terminating. intros Hpre Hc.
  induction pre as [| a pre IH]; cbn [app before_terminating find].
  - rewrite Hc. split; reflexivity.
  - cbn [forallb] in Hpre. apply andb_true_iff in Hpre. destruct Hpre as [Ha Hpre].
    unfold idle in Ha. apply negb_true_iff in Ha. rewrite Ha.
    destruct (IH Hpre) as [IH1 IH2]. rewrite IH1, IH2. split; reflexivity.
Qed.

Lemma emissions_app a b : emissions (a ++ b) = emissions a ++ emissions b.
Proof. unfold emissions. apply flat_map_app. Qed.

Lemma emissions_idle_trace r : emissions (idle_trace r) = echoes r.
Proof.
  unfold idle_trace, echoes.
  induction r as [| c r IH]; [reflexivity |].
  cbn [flat_map filter]. rewrite emissions_app, IH. unfold idle_events.
  destruct (svc.Cmd c =? svc.Interrogate); reflexivity.
Qed.


Lemma occurrences_app p a b :
  occurrences p (a ++ b) = (occurrences p a + occurrences p b)%nat.
Proof. unfold occurrences. rewrite filter_app, length_app. reflexivity. Qed.

(** Requests that do not end the loop reach no callback. *)
Lemma idle_trace_calls r :
  occurrences is_CallStart (idle_trace r) = 0%nat
  /\ occurrences is_CallStop (idle_trace r) = 0%nat
  /\ occurrences is_CallShutdown (idle_trace r) = 0%nat.
Proof.
  unfold idle_trace.
  induction r as [| c r (IH1 & IH2 & IH3)]; [repeat split |].
  cbn [flat_map]. rewrite !occurrences_app, IH1, IH2, IH3.
  unfold idle_events. destruct (svc.Cmd c =? svc.Interrogate); repeat split.
Qed.

Lemma error_events_calls e (p : Event -> bool) :
  (forall x, p (SetError x) = false) -> occurrences p (error_events e) = 0%nat.
Proof. intros Hp. destruct e; cbn; [rewrite Hp |]; reflexivity. Qed.

(** The whole run, in closed form. *)
Lemma Execute_trace ws r :
  ex_trace (Execute ws r)
  = [Emit (StatusLit svc.StartPending 0); CallStart]
      ++ match i_Start (i ws) with
         | Some err => [SetError (Some err)]
         | None =>
           Emit (StatusLit svc.Running cmdsAccepted)
             :: idle_trace (before_terminating r)
             ++ match first_terminating r with
                | Some c =>
                  [Recv c; Emit (StatusLit svc.StopPending 0); stop_call ws c]
                    ++ error_events (stop_answer ws c)
                | None => []
                end
         end.
Proof.
  unfold Execute. rewrite tell_trace. f_equal.
  destruct (i_Start (i ws)) as [err |]; [reflexivity |].
  rewrite tell_trace. cbn [app]. f_equal.
  destruct (split_at_terminating r) as [Hpre Hsplit].
  destruct (first_terminating r) as [c |].
  - destruct Hsplit as (post & Hr & Hc).
    rewrite Hr at 1.
    destruct (loop_idle_prefix ws (before_terminating r) (c :: post) Hpre) as (Ht & _).
    rewrite Ht. f_equal.
    destruct (loop_terminating_step ws c post Hc) as (Hs & _). exact Hs.
  - rewrite Hsplit at 1.
    rewrite <- (app_nil_r (before_terminating r)) at 1.
    destruct (loop_idle_prefix ws (before_terminating r) [] Hpre) as (Ht & _).
    rewrite Ht. reflexivity.
Qed.

Lemma Execute_out ws r :
  ex_out (Execute ws r)
  = match i_Start (i ws) with
    | Some _ => Returned true 1
    | None =>
      match first_terminating r with
      | Some c =>
        match stop_answer ws c with
        | Some _ => Returned true 2
        | None => Returned false 0
        end
      | None => Blocked
      end
    end.
Proof.
  unfold Execute. rewrite tell_out.
  destruct (i_Start (i ws)) as [err |]; [reflexivity |].
  rewrite tell_out.
  destruct (split_at_terminating r) as [Hpre Hsplit].
  destruct (first_terminating r) as [c |].
  - destruct Hsplit as (post & Hr & Hc). rewrite Hr.
    destruct (loop_idle_prefix ws (before_terminating r) (c :: post) Hpre) as (_ & Ho & _).
    rewrite Ho.
    destruct (loop_terminating_step ws c post Hc) as (_ & Hs & _). exact Hs.
  - rewrite Hsplit.
    rewrite <- (app_nil_r (before_terminating r)).
    destruct (loop_idle_prefix ws (before_terminating r) [] Hpre) as (_ & Ho & _).
    rewrite Ho. reflexivity.
Qed.

Lemma Execute_ws ws r :
  ex_ws (Execute ws r)
  = match i_Start (i ws) with
    | Some err => setError (Some err) ws
    | None =>
      match first_terminating r with
      | Some c =>
        match stop_answer ws c with
        | Some err => setError (Some err) ws
        | None => ws
        end
      | None => ws
      end
    end.
Proof.
  unfold Execute. rewrite tell_ws.
  destruct (i_Start (i ws)) as [err |]; [reflexivity |].
  rewrite tell_ws.
  destruct (split_at_terminating r) as [Hpre Hsplit].
  destruct (first_terminating r) as [c |].
  - destruct Hsplit as (post & Hr & Hc). rewrite Hr.
    destruct (loop_idle_prefix ws (before_terminating r) (c :: post) Hpre) as (_ & _ & Hw).
    rewrite Hw.
    destruct (loop_terminating_step ws c post Hc) as (_ & _ & Hs). exact Hs.
  - rewrite Hsplit.
    rewrite <- (app_nil_r (before_terminating r)).
    destruct (loop_idle_prefix ws (before_terminating r) [] Hpre) as (_ & _ & Hw).
    rewrite Hw. reflexivity.
Qed.

Lemma emissions_Emit s l : emissions (Emit s :: l) = s :: emissions l.
Proof. reflexivity. Qed.

Lemma occurrences_cons p e l :
  occurrences p (e :: l) = ((if p e then 1 else 0) + occurrences p l)%nat.
Proof. unfold occurrences. cbn [filter]. destruct (p e); reflexivity. Qed.

Lemma stop_call_cases ws c : stop_call ws c = CallStop \/ stop_call ws c = CallShutdown.
Proof.
  unfold stop_call. destruct (svc.Cmd c =? svc.Stop); [left; reflexivity |].
  destruct (i_Shutdown (i ws)); [right | left]; reflexivity.
Qed.







(** C4.  After a successful Start, a Shutdown request makes the loop
    emit StopPending and then call the client's Shutdown, once, when
    the client has one, and the client's Stop, once, when it has not;
    never both.  When that call fails its error is put in the slot and
    the loop returns (true, 2). *)
Theorem Shutdown_calls_one_callback ws pre c post :
  i_Start (i ws) = None ->
  forallb idle pre = true ->
  svc.Cmd c = svc.Shutdown ->
  let x := Execute ws (pre ++ c :: post) in
  ex_trace x
  = [Emit (StatusLit svc.StartPending 0); CallStart;
     Emit (StatusLit svc.Running cmdsAccepted)]
      ++ idle_trace pre
      ++ [Recv c; Emit (StatusLit svc.StopPending 0); shutdown_call ws]
      ++ error_events (shutdown_answer ws)
  /\ occurrences is_CallShutdown (ex_trace x)
     = match i_Shutdown (i ws) with Some _ => 1%nat | None => 0%nat end
  /\ occurrences is_CallStop (ex_trace x)
     = match i_Shutdown (i ws) with Some _ => 0%nat | None => 1%nat end
  /\ ex_out x
     = match shutdown_answer ws with
       | Some _ => Returned true 2
       | None => Returned false 0
       end
  /\ getError (ex_ws x)
     = match shutdown_answer ws with
       | Some err => Some err
       | None => getError ws
       end.
Proof.
  intros Hstart Hpre Hcmd x. subst x.
  assert (Hc : terminating c = true).
  { unfold terminating. rewrite Hcmd. reflexivity. }
  destruct (before_terminating_idle pre c post Hpre Hc) as [Hb Hf].
  assert (Hcall : stop_call ws c = shutdown_call ws).
  { unfold stop_call, shutdown_call. rewrite Hcmd. reflexivity. }
  assert (Hans : stop_answer ws c = shutdown_answer ws).
  { unfold stop_answer, shutdown_answer. rewrite Hcmd. reflexivity. }
  rewrite Execute_trace, Execute_out, Execute_ws, Hstart, Hb, Hf, Hcall, Hans.
  destruct (idle_trace_calls pre) as (_ & Hstop0 & Hshut0).
  split; [reflexivity |].
  split; [| split; [| split]].
  - rewrite occurrences_app, !occurrences_cons, !occurrences_app, !occurrences_cons.
    rewrite Hshut0, error_events_calls by reflexivity.
    unfold shutdown_call. destruct (i_Shutdown (i ws)); reflexivity.
  - rewrite occurrences_app, !occurrences_cons, !occurrences_app, !occurrences_cons.
    rewrite Hstop0, error_events_calls by reflexivity.
    unfold shutdown_call. destruct (i_Shutdown (i ws)); reflexivity.
  - reflexivity.
  - destruct (shutdown_answer ws); reflexivity.
Qed.

Lemma Shutdown_calls_one_callback_witness :
  let ws := client None None (Some (Some (ErrorString "flush failed"))) in
  let c := request svc.Shutdown running_status in
  let x := Execute ws ([request svc.Interrogate running_status] ++ c :: []) in
  occurrences is_CallShutdown (ex_trace x) = 1%nat
  /\ occurrences is_CallStop (ex_trace x) = 0%nat
  /\ ex_out x = Returned true 2
  /\ getError (ex_ws x) = Some (ErrorString "flush failed").
Proof.
  intros ws c x.
  destruct (Shutdown_calls_one_callback ws [request svc.Interrogate running_status] c [])
    as (_ & H1 & H2 & H3 & H4); [reflexivity .. |].
  repeat split; assumption.
Defined.

Lemma received_idle_trace r : received (idle_trace r) = r.
Proof.
  unfold idle_trace, received.
  induction r as [| c r IH]; [reflexivity |].
  cbn [flat_map]. rewrite flat_map_app.
  unfold idle_events at 1.
  destruct (svc.Cmd c =? svc.Interrogate); cbn [flat_map app]; f_equal; exact IH.
Qed.

Lemma loop_idle_blocked ws r :
  forallb idle r = true ->
  ex_trace (loop ws r) = idle_trace r
  /\ ex_out (loop ws r) = Blocked
  /\ ex_ws (loop ws r) = ws.
Proof.
  intros Hidle.
  destruct (loop_idle_prefix ws r [] Hidle) as (Ht & Ho & Hw).
  rewrite app_nil_r in Ht, Ho, Hw. cbn [loop halt ex_trace ex_out ex_ws] in Ht, Ho, Hw.
  rewrite app_nil_r in Ht. repeat split; assumption.
Qed.

(** C8.  On requests that are neither Stop nor Shutdown the loop stays
    in its receive: each Interrogate sends the request's current status
    back unchanged, every other request is received and dropped, the
    error slot is not touched, and when the requests are used up the
    loop is blocked in the next receive.  On a channel that never runs
    dry it is still in its receive after any number of requests. *)
Theorem loop_blocks_without_stop ws :
  (forall r,
      forallb idle r = true ->
      ex_trace (loop ws r) = idle_trace r
      /\ emissions (ex_trace (loop ws r)) = echoes r
      /\ received (ex_trace (loop ws r)) = r
      /\ ex_out (loop ws r) = Blocked
      /\ ex_ws (loop ws r) = ws
      /\ (i_Start (i ws) = None ->
          ex_out (Execute ws r) = Blocked /\ ex_ws (Execute ws r) = ws))
  /\ (forall s : nat -> svc.ChangeRequest,
         (forall k, idle (s k) = true) ->
         forall n, ex_out (loop ws (firstn_requests s n)) = Blocked).
Proof.
  split.
  - intros r Hidle.
    destruct (loop_idle_blocked ws r Hidle) as (Ht & Ho & Hw).
    split; [exact Ht |].
    split; [rewrite Ht; apply emissions_idle_trace |].
    split; [rewrite Ht; apply received_idle_trace |].
    split; [exact Ho |].
    split; [exact Hw |].
    intros Hstart. unfold Execute. rewrite tell_out, tell_ws, Hstart.
    rewrite tell_out, tell_ws. split; assumption.
  - intros s Hs n.
    apply loop_idle_blocked.
    unfold firstn_requests. apply forallb_forall. intros c Hc.
    apply in_map_iff in Hc. destruct Hc as (k & <- & _). apply Hs.
Qed.

Lemma loop_blocks_without_stop_witness :
  let ws := client None None None in
  let r := [request svc.Interrogate running_status;
            request svc.Pause running_status;
            request 200 running_status;
            request svc.Interrogate running_status] in
  emissions (ex_trace (loop ws r)) = [running_status; running_status]
  /\ ex_out (loop ws r) = Blocked
  /\ ex_out (Execute ws r) = Blocked
  /\ ex_out (loop ws (firstn_requests (fun _ => request svc.Interrogate running_status) 40))
     = Blocked.
Proof.
  intros ws r.
  destruct (loop_blocks_without_stop ws) as (Hlist & Hstream).
  destruct (Hlist r) as (_ & He & _ & Ho & _ & Hx); [reflexivity |].
  split; [exact He | split; [exact Ho | split]].
  - destruct Hx as [Hx _]; [reflexivity | exact Hx].
  - apply Hstream. intros k. reflexivity.
Defined.

(** C9.  What [Execute] hands back to the host: (true, 1) when Start
    fails, (false, 0) when the callback reached by the first Stop or
    Shutdown request succeeds, (true, 2) when that callback fails; so
    the exit code is non-zero, and flagged service-specific, exactly
    when a lifecycle callback failed. *)
Theorem Execute_exit_code ws r :
  (forall err, i_Start (i ws) = Some err ->
               ex_out (Execute ws r) = Returned true 1)
  /\ (forall c,
         i_Start (i ws) = None -> first_terminating r = Some c ->
         stop_answer ws c = None ->
         ex_out (Execute ws r) = Returned false 0)
  /\ (forall c err,
         i_Start (i ws) = None -> first_terminating r = Some c ->
         stop_answer ws c = Some err ->
         ex_out (Execute ws r) = Returned true 2)
  /\ (forall b ec,
         ex_out (Execute ws r) = Returned b ec ->
         (ec <> 0 <-> callback_failed ws r) /\ (b = true <-> ec <> 0)).
Proof.
  rewrite Execute_out. unfold callback_failed.
  split; [| split; [| split]].
  - intros err ->. reflexivity.
  - intros c -> -> ->. reflexivity.
  - intros c err -> -> ->. reflexivity.
  - intros b ec.
    destruct (i_Start (i ws)) as [e |].
    + intros [= <- <-]. repeat split; intros; (exact I || discriminate || reflexivity).
    + destruct (first_terminating r) as [c |]; [| discriminate].
      destruct (stop_answer ws c) as [e |]; intros [= <- <-]; repeat split;
        intros; try (discriminate || reflexivity || congruence).
Qed.

Lemma Execute_exit_code_witness :
  let ws := client None (Some (ErrorString "busy")) None in
  let r := [request svc.Interrogate running_status; request svc.Stop running_status] in
  ex_out (Execute ws r) = Returned true 2
  /\ callback_failed ws r
  /\ ex_out (Execute (client (Some (ErrorString "no port")) None None) r) = Returned true 1
  /\ ex_out (Execute (client None None None) r) = Returned false 0.
Proof.
  intros ws r.
  destruct (Execute_exit_code ws r) as (_ & _ & H2 & Hiff).
  assert (Ho : ex_out (Execute ws r) = Returned true 2).
  { apply (H2 (request svc.Stop running_status) (ErrorString "busy")); reflexivity. }
  split; [exact Ho |].
  split; [apply (Hiff true 2 Ho); discriminate |].
  split.
  - destruct (Execute_exit_code (client (Some (ErrorString "no port")) None None) r)
      as (H0 & _).
    apply (H0 (ErrorString "no port")). reflexivity.
  - destruct (Execute_exit_code (client None None None) r) as (_ & H1 & _).
    apply (H1 (request svc.Stop running_status)); reflexivity.
Defined.

(** ** Run *)

Lemma svc_Run_dispatch h ws r :
  host_requests h = Some r ->
  svc_Run h ws
  = match ex_out (Execute ws r) with
    | Returned _ _ =>
      (HostRun (Name (cfg ws)) :: ex_trace (Execute ws r) ++ [HostReturn (host_runErr h)],
       ex_ws (Execute ws r), Some (host_runErr h))
    | Blocked => (HostRun (Name (cfg ws)) :: ex_trace (Execute ws r), ex_ws (Execute ws r), None)
    end.
Proof. intros H. unfold svc_Run. rewrite H. reflexivity. Qed.

Lemma svc_Run_starts h ws :
  exists tr, fst (fst (svc_Run h ws)) = HostRun (Name (cfg ws)) :: tr.
Proof.
  unfold svc_Run. destruct (host_requests h) as [r |]; [| eexists; reflexivity].
  destruct (ex_out (Execute ws r)); eexists; reflexivity.
Qed.

(** C2.  Outside a terminal, [Run] first empties the error slot, then
    calls the host's run primitive, and when that returns it returns
    the slot's error if there is one and the primitive's own error
    otherwise.  When the client's Start fails with E inside the
    dispatch loop, the loop records E and returns without receiving any
    request, and [Run] returns E whatever the primitive returned. *)
Theorem Run_prefers_recorded_error h ws :
  interactive h = false ->
  (exists tr, run_trace (Run h ws) = SetError None :: HostRun (Name (cfg ws)) :: tr)
  /\ (forall stale, Run h (setError stale ws) = Run h ws)
  /\ (forall runErr,
         snd (svc_Run h (setError None ws)) = Some runErr ->
         run_result (Run h ws)
         = RunReturns match getError (run_ws (Run h ws)) with
                      | Some startStopErr => Some startStopErr
                      | None => runErr
                      end)
  /\ (forall r E,
         host_requests h = Some r -> i_Start (i ws) = Some E ->
         run_result (Run h ws) = RunReturns (Some E)
         /\ run_trace (Run h ws)
            = [SetError None; HostRun (Name (cfg ws));
               Emit (StatusLit svc.StartPending 0); CallStart; SetError (Some E);
               HostReturn (host_runErr h)]
         /\ received (run_trace (Run h ws)) = []).
Proof.
  intros Hni.
  split; [| split; [| split]].
  - unfold Run. rewrite Hni. cbn [negb].
    destruct (svc_Run_starts h (setError None ws)) as (tr & Htr).
    destruct (svc_Run h (setError None ws)) as [[tr' ws'] ret].
    cbn [fst] in Htr. subst tr'. exists tr. reflexivity.
  - intros stale. reflexivity.
  - intros runErr Hret. unfold Run. rewrite Hni. cbn [negb].
    destruct (svc_Run h (setError None ws)) as [[tr' ws'] ret].
    cbn [snd] in Hret. subst ret. cbn [run_result run_ws].
    destruct (getError ws'); [reflexivity |]. destruct runErr; reflexivity.
  - intros r E Hr HE.
    unfold Run. rewrite Hni. cbn [negb].
    rewrite (svc_Run_dispatch h (setError None ws) r Hr).
    rewrite Execute_out, Execute_trace, Execute_ws.
    cbn [i setError]. rewrite HE. cbn.
    destruct (host_runErr h); repeat split.
Qed.

Lemma Run_prefers_recorded_error_witness :
  let h := {| interactive := false;
              host_requests := Some [request svc.Interrogate running_status];
              host_runErr := None; host_interrupt := false |} in
  let ws := client (Some (ErrorString "no port")) None None in
  interactive h = false
  /\ run_result (Run h ws) = RunReturns (Some (ErrorString "no port"))
  /\ received (run_trace (Run h ws)) = [].
Proof.
  intros h ws.
  destruct (Run_prefers_recorded_error h ws) as (_ & _ & _ & Hstart); [reflexivity |].
  destruct (Hstart [request svc.Interrogate running_status] (ErrorString "no port"))
    as (Hres & _ & Hrecv); [reflexivity .. |].
  split; [reflexivity | split; assumption].
Defined.

(** ** The service manager *)

Ltac run :=
  unfold lowPrivMgr, lowPrivSvc, defer, bind, ret, do_, call_err, call_status,
    call_string.

Lemma calls_app p a b : calls p (a ++ b) = (calls p a + calls p b)%nat.
Proof. unfold calls. rewrite filter_app, length_app. reflexivity. Qed.

Lemma calls_one p c : calls p [c] = if p c then 1%nat else 0%nat.
Proof. unfold calls. cbn [filter]. destruct (p c); reflexivity. Qed.

(** Sums and products of durations are exact within int64. *)
Lemma wrap64_in_range z : - 2 ^ 63 <= z < 2 ^ 63 -> wrap64 z = z.
Proof.
  intros H. unfold wrap64. rewrite Z.mod_small by lia. lia.
Qed.

(** *** The generic wait *)

Section WaiterFacts.

Variable poll : list Call -> Poll * list Call.
Variable timeout_err : error.

Lemma Waits_deterministic n h res1 h1 res2 h2 :
  Waits poll timeout_err n h res1 h1 ->
  Waits poll timeout_err n h res2 h2 ->
  res1 = res2 /\ h1 = h2.
Proof.
  intros W1. revert res2 h2.
  induction W1 as [h | n h h' Hp | n h err h' Hp | n h hm res h' Hp W IH];
    intros res2 h2 W2; inversion W2; subst;
    repeat match goal with
           | H1 : poll ?x = _, H2 : poll ?x = _ |- _ =>
             rewrite H1 in H2; inversion H2; subst; clear H2
           end;
    try (split; reflexivity).
  apply IH. assumption.
Qed.

(** Success, the timeout error, or the error of a failed poll. *)
Lemma Waits_outcomes n h res h' :
  Waits poll timeout_err n h res h' ->
  res = None
  \/ res = Some timeout_err
  \/ exists hq err, fst (poll hq) = Failed err /\ res = Some err.
Proof.
  induction 1 as [h | n h h' Hp | n h err h' Hp | n h hm res h' Hp W IH].
  - right; left; reflexivity.
  - left; reflexivity.
  - right; right. exists (h ++ [TickC]), err. rewrite Hp. split; reflexivity.
  - exact IH.
Qed.


(** The timeout case is taken only when the ticks are used up, and it
    is then the last thing that happens. *)
Lemma Waits_timed_out n h res h' :
  Waits poll timeout_err n h res h' ->
  forall hq, h' = hq ++ [TimeoutC] -> (forall hp, snd (poll hp) <> hq ++ [TimeoutC] ) ->
  res = Some timeout_err.
Proof.
  induction 1 as [h | n h h' Hp | n h err h' Hp | n h hm res h' Hp W IH];
    intros hq Hh Hpoll.
  - reflexivity.
  - exfalso. apply (Hpoll (h ++ [TickC])). rewrite Hp. exact Hh.
  - exfalso. apply (Hpoll (h ++ [TickC])). rewrite Hp. exact Hh.
  - exact (IH hq Hh Hpoll).
Qed.

End WaiterFacts.

(** *** getStopTimeout and the timer *)

Lemma getStopTimeout_calls w h p :
  p (RegOpenKey "SYSTEM\CurrentControlSet\Control") = false ->
  p (RegGetStringValue "WaitToKillServiceTimeout") = false ->
  calls p (snd (getStopTimeout w h)) = calls p h.
Proof.
  intros H1 H2. unfold getStopTimeout. run.
  destruct (w_err w h _); cbn [snd].
  - rewrite calls_app, calls_one, H1. apply Nat.add_0_r.
  - destruct (w_string w _ _) as [err | sv]; [| destruct (Atoi sv)]; cbn [snd];
      rewrite !calls_app, !calls_one, H1, H2, !Nat.add_0_r; reflexivity.
Qed.

(** The kill timeout is the registry's number of milliseconds when it
    can be read and parsed, and 20 seconds otherwise. *)
Lemma getStopTimeout_value w h :
  fst (getStopTimeout w h) = 20000 * Millisecond
  \/ exists sv v,
      w_string w (h ++ [RegOpenKey "SYSTEM\CurrentControlSet\Control"])
        (RegGetStringValue "WaitToKillServiceTimeout") = inr sv
      /\ Atoi sv = Some v
      /\ fst (getStopTimeout w h) = wrap64 (Millisecond * v).
Proof.
  unfold getStopTimeout. run.
  destruct (w_err w h _); [left; reflexivity |].
  destruct (w_string w _ _) as [err | sv] eqn:Hs; [left; reflexivity |].
  destruct (Atoi sv) as [v |] eqn:Hv; [| left; reflexivity].
  right. exists sv, v. repeat split; assumption.
Qed.

Lemma with_timer_run {A : Type} w td (body : nat -> M A) h :
  with_timer w td body h
  = let kill := fst (getStopTimeout w h) in
    let h1 := snd (getStopTimeout w h) in
    let deadline := dadd kill (dmul td 2) in
    let h2 := h1 ++ [TimeAfter deadline; NewTicker td] in
    let r := body (w_ticks w h2 deadline td) h2 in
    (fst r, snd r ++ [TickerStop]).
Proof.
  unfold with_timer. run.
  destruct (getStopTimeout w h) as [kill h1]. cbn [fst snd].
  rewrite <- app_assoc. cbn [app].
  destruct (body _ _) as [a h3]. reflexivity.
Qed.

(** *** The stop wait *)

Lemma stopWait_loop_stopped w ws n status h :
  svc.State status = svc.Stopped ->
  stopWait_loop w ws n status h = (None, h).
Proof.
  intros H. destruct n; cbn [stopWait_loop]; rewrite H; reflexivity.
Qed.

Lemma stopWait_loop_Waits w ws n :
  forall status h,
    svc.State status <> svc.Stopped ->
    Waits (stop_poll w) (stop_timeout_error ws) n h
          (fst (stopWait_loop w ws n status h))
          (snd (stopWait_loop w ws n status h)).
Proof.
  induction n as [| n IH]; intros status h Hs; cbn [stopWait_loop];
    apply Z.eqb_neq in Hs; rewrite Hs; cbn [negb].
  - run. cbn [fst snd]. apply Waits_timeout.
  - run.
    destruct (w_status w (h ++ [TickC]) SvcQuery) as [err | status'] eqn:Hq.
    + cbn [fst snd]. apply Waits_failed. unfold stop_poll. rewrite Hq. reflexivity.
    + destruct (Z.eqb_spec (svc.State status') svc.Stopped) as [Hst | Hst].
      * rewrite stopWait_loop_stopped by assumption. cbn [fst snd].
        apply Waits_converged. unfold stop_poll. rewrite Hq.
        apply Z.eqb_eq in Hst. rewrite Hst. reflexivity.
      * apply Waits_pending with (h1 := (h ++ [TickC]) ++ [SvcQuery]).
        -- unfold stop_poll. rewrite Hq.
           apply Z.eqb_neq in Hst. rewrite Hst. reflexivity.
        -- apply IH. assumption.
Qed.

Lemma stopWait_loop_calls w ws p n :
  p TickC = false -> p SvcQuery = false -> p TimeoutC = false ->
  forall status h, calls p (snd (stopWait_loop w ws n status h)) = calls p h.
Proof.
  intros H1 H2 H3.
  induction n as [| n IH]; intros status h; cbn [stopWait_loop];
    destruct (svc.State status =? svc.Stopped); cbn [negb]; try reflexivity; run.
  - cbn [snd]. rewrite calls_app, calls_one, H3. apply Nat.add_0_r.
  - destruct (w_status w (h ++ [TickC]) SvcQuery) as [err | status'].
    + cbn [snd]. rewrite !calls_app, !calls_one, H1, H2, !Nat.add_0_r. reflexivity.
    + rewrite IH, !calls_app, !calls_one, H1, H2, !Nat.add_0_r. reflexivity.
Qed.

(** The loop only adds to the calls made: one query after every tick
    it takes, and no more ticks than it was given. *)
Lemma stopWait_loop_polls w ws n :
  forall status h,
  exists more,
    snd (stopWait_loop w ws n status h) = h ++ more
    /\ calls is_SvcQuery more = calls is_TickC more
    /\ (calls is_TickC more <= n)%nat.
Proof.
  induction n as [| n IH]; intros status h; cbn [stopWait_loop];
    destruct (svc.State status =? svc.Stopped); cbn [negb]; run; cbn [snd].
  - exists []. rewrite app_nil_r. cbn. repeat split; lia.
  - exists [TimeoutC]. cbn. repeat split; lia.
  - exists []. rewrite app_nil_r. cbn. repeat split; lia.
  - destruct (w_status w (h ++ [TickC]) SvcQuery) as [err | status'].
    + exists [TickC; SvcQuery]. cbn [snd]. rewrite <- app_assoc.
      cbn. repeat split; lia.
    + destruct (IH status' ((h ++ [TickC]) ++ [SvcQuery])) as (more & Hm & Hq & Ht).
      exists ([TickC; SvcQuery] ++ more). rewrite Hm, <- !app_assoc.
      split; [reflexivity |]. rewrite !calls_app, Hq. cbn. split; lia.
Qed.

Lemma stopWait_run w ws h :
  stopWait w ws h
  = match w_status w h (SvcControl svc.Stop) with
    | inl err => (Some err, h ++ [SvcControl svc.Stop])
    | inr status =>
      with_timer w (dmul Millisecond 50)
        (fun ticks => stopWait_loop w ws ticks status) (h ++ [SvcControl svc.Stop])
    end.
Proof.
  unfold stopWait. run.
  destruct (w_status w h (SvcControl svc.Stop)); reflexivity.
Qed.

(** The stop wait leaves every call alone but its own. *)
Lemma stopWait_calls w ws p h :
  p (SvcControl svc.Stop) = false ->
  p (RegOpenKey "SYSTEM\CurrentControlSet\Control") = false ->
  p (RegGetStringValue "WaitToKillServiceTimeout") = false ->
  (forall d, p (TimeAfter d) = false) -> (forall d, p (NewTicker d) = false) ->
  p TickerStop = false ->
  p TickC = false -> p SvcQuery = false -> p TimeoutC = false ->
  calls p (snd (stopWait w ws h)) = calls p h.
Proof.
  intros Hc Hk Hv Ha Hn Hts Ht Hq Hto.
  rewrite stopWait_run.
  destruct (w_status w h (SvcControl svc.Stop)) as [err | status]; cbn [snd].
  - rewrite calls_app, calls_one, Hc. apply Nat.add_0_r.
  - rewrite with_timer_run. cbv zeta. cbn [snd].
    rewrite calls_app, calls_one, Hts, Nat.add_0_r.
    rewrite stopWait_loop_calls by assumption.
    rewrite calls_app, getStopTimeout_calls by assumption.
    rewrite calls_app, calls_one, Hc.
    unfold calls at 2. cbn [filter]. rewrite Ha, Hn. cbn. rewrite !Nat.add_0_r.
    reflexivity.
Qed.

Lemma Stop_run w ws h :
  w_err w h OpenSCManager = None ->
  w_err w (h ++ [OpenSCManager]) (OpenServiceLow (Name (cfg ws))) = None ->
  Stop w ws h
  = let r := stopWait w ws (h ++ [OpenSCManager; OpenServiceLow (Name (cfg ws))]) in
    (fst r, snd r ++ [SvcClose; MgrDisconnect]).
Proof.
  intros Hm Hs. unfold Stop. run. rewrite Hm, Hs.
  rewrite <- app_assoc. cbn [app].
  destruct (stopWait w ws _) as [e h']. cbn [fst snd].
  rewrite <- app_assoc. reflexivity.
Qed.

(** C3, as amended.  When the stop control is accepted, [Stop] arms a
    timeout of the resolved kill timeout plus twice 50ms and a 50ms
    ticker, and then looks at the raw state: that of the control's
    reply first, without polling, then that of one query per tick.  It
    returns success at the first state that is Stopped, the query's
    error when a query fails, and the timeout error when the timeout
    fires first; the wait has these three outcomes and no other. *)
Theorem Stop_wait_outcomes w ws h0 status :
  let name := Name (cfg ws) in
  let h := h0 ++ [OpenSCManager; OpenServiceLow name] in
  w_err w h0 OpenSCManager = None ->
  w_err w (h0 ++ [OpenSCManager]) (OpenServiceLow name) = None ->
  w_status w h (SvcControl svc.Stop) = inr status ->
  let interval := 50 * Millisecond in
  let kill := fst (getStopTimeout w (h ++ [SvcControl svc.Stop])) in
  let deadline := wrap64 (kill + 2 * interval) in
  let h2 := snd (getStopTimeout w (h ++ [SvcControl svc.Stop]))
              ++ [TimeAfter deadline; NewTicker interval] in
  let ticks := w_ticks w h2 deadline interval in
  exists res h3,
    Stop w ws h0 = (res, h3 ++ [TickerStop; SvcClose; MgrDisconnect])
    /\ (svc.State status = svc.Stopped -> res = None /\ h3 = h2)
    /\ (svc.State status <> svc.Stopped ->
        Waits (stop_poll w) (stop_timeout_error ws) ticks h2 res h3)
    /\ (exists more,
           h3 = h2 ++ more
           /\ calls is_SvcQuery more = calls is_TickC more
           /\ (calls is_TickC more <= ticks)%nat)
    /\ (res = None
        \/ res = Some (stop_timeout_error ws)
        \/ exists hq err, w_status w hq SvcQuery = inl err /\ res = Some err).
Proof.
  intros name h Hm Hs Hc interval kill deadline h2 ticks.
  rewrite (Stop_run w ws h0 Hm Hs). fold name. fold h.
  rewrite stopWait_run, Hc, with_timer_run. cbv zeta.
  change (dmul Millisecond 50) with interval.
  change (dadd ?k (dmul interval 2)) with (wrap64 (k + 2 * interval)).
  fold kill. fold deadline. fold h2. fold ticks. cbn [fst snd].
  exists (fst (stopWait_loop w ws ticks status h2)),
         (snd (stopWait_loop w ws ticks status h2)).
  split; [rewrite <- app_assoc; reflexivity |].
  assert (Hpolls := stopWait_loop_polls w ws ticks status h2).
  destruct (Z.eq_dec (svc.State status) svc.Stopped) as [Hst | Hst].
  - rewrite stopWait_loop_stopped in * by assumption. cbn [fst snd] in *.
    split; [intros _; split; reflexivity |].
    split; [intros Hn; contradiction |].
    split; [exact Hpolls | left; reflexivity].
  - assert (W := stopWait_loop_Waits w ws ticks status h2 Hst).
    split; [intros He; contradiction |].
    split; [intros _; exact W |].
    split; [exact Hpolls |].
    destruct (Waits_outcomes _ _ _ _ _ _ W) as [H | [H | (hq & err & Hq & H)]].
    + left; exact H.
    + right; left; exact H.
    + right; right. exists hq, err. split; [| exact H].
      unfold stop_poll in Hq. cbn [fst] in Hq.
      destruct (w_status w hq SvcQuery) as [e | st]; [congruence |].
      destruct (svc.State st =? svc.Stopped); discriminate.
Qed.

Lemma Stop_wait_outcomes_witness :
  let w := stops_after "300" 3 running_status in
  exists res h3,
    Stop w agent [] = (res, h3 ++ [TickerStop; SvcClose; MgrDisconnect])
    /\ res = None
    /\ Waits (stop_poll w) (stop_timeout_error agent) 7%nat
         [OpenSCManager; OpenServiceLow "agent"; SvcControl svc.Stop;
          RegOpenKey "SYSTEM\CurrentControlSet\Control";
          RegGetStringValue "WaitToKillServiceTimeout";
          TimeAfter (400 * Millisecond); NewTicker (50 * Millisecond)]
         res h3.
Proof.
  intros w.
  destruct (Stop_wait_outcomes w agent [] running_status)
    as (res & h3 & Hrun & _ & Hwait & _ & _); [reflexivity .. |].
  exists res, h3. split; [exact Hrun |]. split.
  - apply (f_equal fst) in Hrun. cbn [fst] in Hrun. rewrite <- Hrun. reflexivity.
  - apply Hwait. discriminate.
Defined.

(** C3, as stated, fails twice over.  A query that fails ends the wait
    with the query's error, which is neither success nor the timeout
    error.  And the wait looks at the raw state: a service that stays
    in StopPending, which [Status] reports as Stopped, is waited for
    until the timeout. *)
Lemma Stop_wait_has_a_third_outcome :
  w_status query_fails [OpenSCManager; OpenServiceLow "agent"] (SvcControl svc.Stop)
  = inr running_status
  /\ fst (Stop query_fails agent [])
     = Some (Errno 1726 "The remote procedure call failed.")
  /\ ~ two_outcomes (stop_timeout_error agent) (fst (Stop query_fails agent []))
  /\ fst (Status (stops_after "200" 100 (StatusLit svc.StopPending 0)) agent [])
     = (StatusStopped, None)
  /\ fst (Stop (stops_after "200" 100 (StatusLit svc.StopPending 0)) agent [])
     = Some (stop_timeout_error agent).
Proof.
  split; [reflexivity |]. split; [reflexivity |].
  split; [| split; reflexivity].
  intros [H | H]; vm_compute in H; discriminate H.
Qed.

(** C5.  With the manager reachable, [Status] reports a missing
    instance as the not-installed error, and maps the raw state of a
    query that succeeds: StartPending and Running to Running;
    PausePending, Paused, ContinuePending, StopPending and Stopped to
    Stopped; anything else to Unknown with an error. *)
Theorem Status_collapses_raw_state w ws h :
  let name := Name (cfg ws) in
  w_err w h OpenSCManager = None ->
  (forall text,
      w_err w (h ++ [OpenSCManager]) (OpenServiceLow name)
      = Some (Errno errnoServiceDoesNotExist text) ->
      fst (Status w ws h) = (StatusUnknown, Some ErrNotInstalled))
  /\ (forall status,
         w_err w (h ++ [OpenSCManager]) (OpenServiceLow name) = None ->
         w_status w (h ++ [OpenSCManager; OpenServiceLow name]) SvcQuery = inr status ->
         let s := svc.State status in
         (s = svc.StartPending \/ s = svc.Running ->
          fst (Status w ws h) = (StatusRunning, None))
         /\ (s = svc.PausePending \/ s = svc.Paused \/ s = svc.ContinuePending
             \/ s = svc.StopPending \/ s = svc.Stopped ->
             fst (Status w ws h) = (StatusStopped, None))
         /\ (s <> svc.StartPending -> s <> svc.Running -> s <> svc.PausePending ->
             s <> svc.Paused -> s <> svc.ContinuePending -> s <> svc.StopPending ->
             s <> svc.Stopped ->
             exists err, fst (Status w ws h) = (StatusUnknown, Some err))).
Proof.
  intros name Hm. split.
  - intros text Ho. unfold Status. run. rewrite Hm. fold name. rewrite Ho. reflexivity.
  - intros status Ho Hq s. unfold Status. run. rewrite Hm. fold name. rewrite Ho.
    rewrite <- app_assoc. cbn [app]. rewrite Hq. fold s. cbn [fst].
    split; [| split].
    + intros [-> | ->]; reflexivity.
    + intros [-> | [-> | [-> | [-> | ->]]]]; reflexivity.
    + intros H1 H2 H3 H4 H5 H6 H7.
      apply Z.eqb_neq in H1, H2, H3, H4, H5, H6, H7.
      rewrite H1, H2, H3, H4, H5, H6, H7. cbn [orb]. eexists. reflexivity.
Qed.

Lemma Status_collapses_raw_state_witness :
  fst (Status (stops_after "200" 100 (StatusLit svc.PausePending 0)) agent [])
  = (StatusStopped, None)
  /\ fst (Status not_installed agent []) = (StatusUnknown, Some ErrNotInstalled)
  /\ exists err,
      fst (Status (stops_after "200" 100 (StatusLit 9 0)) agent []) = (StatusUnknown, Some err).
Proof.
  destruct (Status_collapses_raw_state
              (stops_after "200" 100 (StatusLit svc.PausePending 0)) agent [])
    as (_ & Hq); [reflexivity |].
  destruct (Hq (StatusLit svc.PausePending 0)) as (_ & Hstopped & _); [reflexivity .. |].
  split; [apply Hstopped; left; reflexivity |].
  split.
  { destruct (Status_collapses_raw_state not_installed agent []) as (Hgone & _);
      [reflexivity |].
    apply (Hgone "The specified service does not exist as an installed service."%string).
    reflexivity. }
  destruct (Status_collapses_raw_state (stops_after "200" 100 (StatusLit 9 0)) agent [])
    as (_ & Hq'); [reflexivity |].
  destruct (Hq' (StatusLit 9 0)) as (_ & _ & Hunknown); [reflexivity .. |].
  apply Hunknown; discriminate.
Defined.

(** *** Restart *)

Lemma Restart_run w ws h :
  w_err w h OpenSCManager = None ->
  w_err w (h ++ [OpenSCManager]) (OpenServiceLow (Name (cfg ws))) = None ->
  Restart w ws h
  = let stopped := stopWait w ws (h ++ [OpenSCManager; OpenServiceLow (Name (cfg ws))]) in
    match fst stopped with
    | Some err => (Some err, snd stopped ++ [SvcClose; MgrDisconnect])
    | None =>
      (w_err w (snd stopped) SvcStart,
       snd stopped ++ [SvcStart; SvcClose; MgrDisconnect])
    end.
Proof.
  intros Hm Hs. unfold Restart. run. rewrite Hm, Hs.
  rewrite <- app_assoc. cbn [app].
  destruct (stopWait w ws _) as [[err |] h']; cbn [fst snd];
    rewrite <- !app_assoc; reflexivity.
Qed.



(** *** Uninstall *)

(** The loop only adds to the calls made: one open after every tick it
    takes, and no more ticks than it was given. *)
Lemma uninstallWait_loop_polls w ws n :
  forall h,
  exists more,
    snd (uninstallWait_loop w ws n h) = h ++ more
    /\ calls is_MgrOpenService more = calls is_TickC more
    /\ (calls is_TickC more <= n)%nat
    /\ calls is_SvcDelete more = 0%nat.
Proof.
  induction n as [| n IH]; intros h; cbn [uninstallWait_loop]; run.
  - exists [TimeoutC]. cbn. repeat split; lia.
  - destruct (w_err w (h ++ [TickC]) (MgrOpenService (Name (cfg ws)))) as [err |].
    + exists [TickC; MgrOpenService (Name (cfg ws))].
      destruct (isServiceDoesNotExist err); cbn [snd]; rewrite <- app_assoc;
        cbn; repeat split; lia.
    + destruct (IH (((h ++ [TickC]) ++ [MgrOpenService (Name (cfg ws))]) ++ [SvcClose]))
        as (more & Hm & Ho & Ht & Hd).
      exists ([TickC; MgrOpenService (Name (cfg ws)); SvcClose] ++ more).
      rewrite Hm, <- !app_assoc.
      split; [reflexivity |]. rewrite !calls_app, Ho, Hd. cbn. repeat split; lia.
Qed.

Lemma uninstallWait_loop_Waits w ws n :
  forall h,
    Waits (open_poll w (Name (cfg ws))) (delete_timeout_error ws) n h
          (fst (uninstallWait_loop w ws n h))
          (snd (uninstallWait_loop w ws n h)).
Proof.
  induction n as [| n IH]; intros h; cbn [uninstallWait_loop]; run.
  - cbn [fst snd]. apply Waits_timeout.
  - destruct (w_err w (h ++ [TickC]) (MgrOpenService (Name (cfg ws))))
      as [err |] eqn:Ho.
    + destruct (isServiceDoesNotExist err) eqn:Hgone; cbn [fst snd].
      * apply Waits_converged. unfold open_poll. rewrite Ho, Hgone. reflexivity.
      * apply Waits_failed. unfold open_poll. rewrite Ho, Hgone. reflexivity.
    + apply Waits_pending
        with (h1 := ((h ++ [TickC]) ++ [MgrOpenService (Name (cfg ws))]) ++ [SvcClose]).
      * unfold open_poll. rewrite Ho.
        rewrite <- (app_assoc (h ++ [TickC]) [_] [_]). reflexivity.
      * apply IH.
Qed.

(** C7, as amended.  [Uninstall] begins with [Stop], and when [Stop]
    fails it returns that error and does nothing more.  When [Stop]
    succeeds and the entry is opened, deleted and its event-log source
    removed, it performs the uninstall wait: a timeout of the resolved
    kill timeout plus twice 100ms, a 100ms ticker, and on every tick an
    open of the entry; the wait succeeds at the first open that fails
    with the does-not-exist code and fails with the timeout error when
    the timeout fires first. *)
Theorem Uninstall_stops_deletes_waits w ws h :
  let name := Name (cfg ws) in
  let h1 := snd (Stop w ws h) in
  (forall err, fst (Stop w ws h) = Some err -> Uninstall w ws h = (Some err, h1))
  /\ (fst (Stop w ws h) = None ->
      w_err w h1 MgrConnect = None ->
      w_err w (h1 ++ [MgrConnect]) (MgrOpenService name) = None ->
      w_err w (h1 ++ [MgrConnect; MgrOpenService name]) SvcDelete = None ->
      match w_err w (h1 ++ [MgrConnect; MgrOpenService name; SvcDelete])
                  (EventlogRemove name) with
      | Some err => is_ERROR_FILE_NOT_FOUND err = true
      | None => True
      end ->
      let interval := 100 * Millisecond in
      let h2 := h1 ++ [MgrConnect; MgrOpenService name; SvcDelete; EventlogRemove name] in
      let kill := fst (getStopTimeout w h2) in
      let deadline := wrap64 (kill + 2 * interval) in
      let h3 := snd (getStopTimeout w h2) ++ [TimeAfter deadline; NewTicker interval] in
      exists res h4,
        Uninstall w ws h = (res, h4 ++ [TickerStop; SvcClose; MgrDisconnect])
        /\ Waits (open_poll w name) (delete_timeout_error ws)
                 (w_ticks w h3 deadline interval) h3 res h4
        /\ (exists more,
               h4 = h3 ++ more
               /\ calls is_MgrOpenService more = calls is_TickC more
               /\ (calls is_TickC more <= w_ticks w h3 deadline interval)%nat
               /\ calls is_SvcDelete more = 0%nat)).
Proof.
  intros name h1. split.
  - intros err He. unfold Uninstall. unfold bind at 1.
    subst h1. destruct (Stop w ws h) as [e hs]. cbn [fst snd] in *. subst e.
    reflexivity.
  - intros He Hc Ho Hd Hr interval h2 kill deadline h3.
    assert (Hwait : uninstallWait w ws h2
                    = (fst (uninstallWait_loop w ws (w_ticks w h3 deadline interval) h3),
                       snd (uninstallWait_loop w ws (w_ticks w h3 deadline interval) h3)
                         ++ [TickerStop])).
    { unfold uninstallWait. rewrite with_timer_run. reflexivity. }
    exists (fst (uninstallWait_loop w ws (w_ticks w h3 deadline interval) h3)),
           (snd (uninstallWait_loop w ws (w_ticks w h3 deadline interval) h3)).
    split; [| split; [apply uninstallWait_loop_Waits | apply uninstallWait_loop_polls]].
    unfold Uninstall. unfold bind at 1.
    subst h1. destruct (Stop w ws h) as [e hs]. cbn [fst snd] in *. subst e.
    run. fold name. rewrite Hc.
    rewrite Ho.
    replace ((hs ++ [MgrConnect]) ++ [MgrOpenService name])
      with (hs ++ [MgrConnect; MgrOpenService name]) by (rewrite <- app_assoc; reflexivity).
    rewrite Hd.
    replace ((hs ++ [MgrConnect; MgrOpenService name]) ++ [SvcDelete])
      with (hs ++ [MgrConnect; MgrOpenService name; SvcDelete])
      by (rewrite <- app_assoc; reflexivity).
    replace ((hs ++ [MgrConnect; MgrOpenService name; SvcDelete]) ++ [EventlogRemove name])
      with h2 by (unfold h2; rewrite <- app_assoc; reflexivity).
    destruct (w_err w (hs ++ [MgrConnect; MgrOpenService name; SvcDelete])
                    (EventlogRemove name)) as [err |].
    + rewrite Hr. cbn [negb]. rewrite Hwait. cbn [fst snd].
      rewrite <- !app_assoc. reflexivity.
    + rewrite Hwait. cbn [fst snd]. rewrite <- !app_assoc. reflexivity.
Qed.

Lemma Uninstall_stops_deletes_waits_witness :
  let w := entry_gone_after 3 in
  exists h4,
    Uninstall w agent [] = (None, h4 ++ [TickerStop; SvcClose; MgrDisconnect])
    /\ In (NewTicker (100 * Millisecond)) h4
    /\ In (TimeAfter (20200 * Millisecond)) h4
    /\ calls is_TickC h4 = 3%nat.
Proof.
  intros w.
  destruct (Uninstall_stops_deletes_waits w agent []) as (_ & H).
  destruct H as (res & h4 & Hrun & _); [reflexivity .. | exact I |].
  exists h4.
  assert (Hv : Uninstall w agent []
               = (None,
                  [OpenSCManager; OpenServiceLow "agent"; SvcControl 1;
                   RegOpenKey "SYSTEM\CurrentControlSet\Control";
                   RegGetStringValue "WaitToKillServiceTimeout";
                   TimeAfter 20100000000; NewTicker 50000000; TickerStop; SvcClose;
                   MgrDisconnect; MgrConnect; MgrOpenService "agent"; SvcDelete;
                   EventlogRemove "agent";
                   RegOpenKey "SYSTEM\CurrentControlSet\Control";
                   RegGetStringValue "WaitToKillServiceTimeout";
                   TimeAfter 20200000000; NewTicker 100000000;
                   TickC; MgrOpenService "agent"; SvcClose;
                   TickC; MgrOpenService "agent"; SvcClose;
                   TickC; MgrOpenService "agent"]
                    ++ [TickerStop; SvcClose; MgrDisconnect])) by reflexivity.
  rewrite Hv in Hrun. apply (f_equal snd) in Hrun. cbn [snd] in Hrun.
  apply app_inv_tail in Hrun. subst h4.
  split; [exact Hv |].
  split; [cbn; tauto |]. split; [cbn; tauto | reflexivity].
Defined.

(** C7, as stated, fails: [Stop] is not best effort.  On a service that
    is installed but not running the stop control is refused, and
    [Uninstall] returns that error with the entry never deleted. *)
Lemma Uninstall_gives_up_when_Stop_fails :
  fst (Stop not_active agent []) = Some (Errno 1062 "The service has not been started.")
  /\ Uninstall not_active agent [] = Stop not_active agent []
  /\ calls is_SvcDelete (snd (Uninstall not_active agent [])) = 0%nat
  /\ ~ Stop_is_best_effort not_active agent.
Proof.
  split; [reflexivity |]. split; [reflexivity |]. split; [reflexivity |].
  intros H.
  specialize (H (Errno 1062 "The service has not been started.") eq_refl).
  vm_compute in H. inversion H.
Qed.

(** *** Install *)

(** When the middle of Install succeeds, the entry has been created. *)
Lemma Install_create_created w ws exepath h hc :
  Install_create w ws exepath h = (None, hc) ->
  exists pre c,
    is_CreateService c = true
    /\ w_err w pre c = None
    /\ (hc = pre ++ [c] \/ exists a d r, hc = pre ++ [c; SetRecoveryActions a d r]).
Proof.
  unfold Install_create. unfold bind at 1.
  destruct (setEnvironmentVariablesInRegistry w ws h) as [[err |] h1];
    [unfold ret; discriminate |].
  run.
  destruct (w_err w h1 (MgrOpenService (Name (cfg ws)))); [| discriminate].
  match goal with
  | |- context [w_err w ?p (CreateService ?a ?b ?c ?d)] =>
    set (pre := p); set (create := CreateService a b c d)
  end.
  destruct (w_err w pre create) eqn:Hc; [discriminate |].
  destruct (negb (kv_string (Option (cfg ws)) OnFailure "" =? "")%string).
  - intros [= He <-]. exists pre, create.
    split; [reflexivity | split; [exact Hc |]].
    right. do 3 eexists. rewrite <- app_assoc. reflexivity.
  - intros [= <-]. exists pre, create.
    split; [reflexivity | split; [exact Hc |]]. left. reflexivity.
Qed.

(** C10.  Once the entry is created, a failure to register the
    event-log source whose text does not say that the source exists
    makes [Install] delete the entry and return the error; a failure
    whose text says that it exists is passed over: [Install] succeeds
    and deletes nothing. *)
Theorem Install_deletes_entry_on_eventlog_failure w ws h exepath hc :
  let name := Name (cfg ws) in
  let register :=
    EventlogInstall name (Z.lor (Z.lor eventlog.Error eventlog.Warning) eventlog.Info) in
  w_string w h ExecPath = inr exepath ->
  w_err w (h ++ [ExecPath]) MgrConnect = None ->
  Install_create w ws exepath (h ++ [ExecPath; MgrConnect]) = (None, hc) ->
  (exists pre c,
      is_CreateService c = true /\ w_err w pre c = None
      /\ (hc = pre ++ [c] \/ exists a d r, hc = pre ++ [c; SetRecoveryActions a d r]))
  /\ (forall err,
         w_err w hc register = Some err ->
         Contains (Error err) "exists" = false ->
         Install w ws h
         = (Some (ErrorString ("SetupEventLogSource() failed: " ++ Error err)%string),
            hc ++ [register; SvcDelete; SvcClose; MgrDisconnect]))
  /\ (forall err,
         w_err w hc register = Some err ->
         Contains (Error err) "exists" = true ->
         Install w ws h = (None, hc ++ [register; SvcClose; MgrDisconnect])
         /\ calls is_SvcDelete (snd (Install w ws h)) = calls is_SvcDelete hc)
  /\ (w_err w hc register = None ->
      Install w ws h = (None, hc ++ [register; SvcClose; MgrDisconnect])).
Proof.
  intros name register Hx Hm Hcreate.
  assert (Hrun : Install w ws h
                 = let r := Install_eventlog w ws hc in
                   (fst r, snd r ++ [MgrDisconnect])).
  { unfold Install. run. rewrite Hx, Hm.
    rewrite <- app_assoc. cbn [app]. rewrite Hcreate.
    destruct (Install_eventlog w ws hc). reflexivity. }
  split; [exact (Install_create_created _ _ _ _ _ Hcreate) |].
  rewrite Hrun. unfold Install_eventlog. run. fold name. fold register. cbv zeta.
  split; [| split].
  - intros err He Hc. rewrite He, Hc. cbn [negb fst snd].
    rewrite <- !app_assoc. reflexivity.
  - intros err He Hc. rewrite He, Hc. cbn [negb fst snd].
    rewrite <- !app_assoc. split; [reflexivity |].
    rewrite calls_app. cbn. apply Nat.add_0_r.
  - intros He. rewrite He. cbn [fst snd]. rewrite <- !app_assoc. reflexivity.
Qed.

Lemma Install_deletes_entry_on_eventlog_failure_witness :
  let denied := Errno 5 "Access is denied." in
  let dup := ErrorString "SYSTEM\CurrentControlSet\Services\EventLog\Application\agent registry key already exists" in
  fst (Install (fresh_host (Some denied)) agent [])
  = Some (ErrorString "SetupEventLogSource() failed: Access is denied.")
  /\ calls is_SvcDelete (snd (Install (fresh_host (Some denied)) agent [])) = 1%nat
  /\ fst (Install (fresh_host (Some dup)) agent []) = None
  /\ calls is_SvcDelete (snd (Install (fresh_host (Some dup)) agent [])) = 0%nat.
Proof.
  intros denied dup.
  destruct (Install_deletes_entry_on_eventlog_failure
              (fresh_host (Some denied)) agent [] "C:\agent\agent.exe"%string
              (snd (Install_create (fresh_host (Some denied)) agent
                      "C:\agent\agent.exe" [ExecPath; MgrConnect])))
    as (_ & Hfail & _); [reflexivity .. |].
  destruct (Install_deletes_entry_on_eventlog_failure
              (fresh_host (Some dup)) agent [] "C:\agent\agent.exe"%string
              (snd (Install_create (fresh_host (Some dup)) agent
                      "C:\agent\agent.exe" [ExecPath; MgrConnect])))
    as (_ & _ & Hdup & _); [reflexivity .. |].
  destruct (Hdup dup) as (Hres & Hkept); [reflexivity .. |].
  split; [rewrite (Hfail denied); reflexivity |].
  split; [rewrite (Hfail denied); reflexivity |].
  split; [rewrite Hres; reflexivity |].
  rewrite Hkept. reflexivity.
Defined.

(** * Further properties *)

(** ** The dispatch loop and Run *)

Lemma received_app a b : received (a ++ b) = received a ++ received b.
Proof. unfold received. apply flat_map_app. Qed.

Lemma received_error_events e : received (error_events e) = [].
Proof. destruct e; reflexivity. Qed.

Lemma callbacks_app a b : callbacks (a ++ b) = callbacks a ++ callbacks b.
Proof. unfold callbacks. apply filter_app. Qed.

Lemma callbacks_idle_trace r : callbacks (idle_trace r) = [].
Proof.
  unfold idle_trace, callbacks.
  induction r as [| c r IH]; [reflexivity |].
  cbn [flat_map]. rewrite filter_app, IH, app_nil_r.
  unfold idle_events. destruct (svc.Cmd c =? svc.Interrogate); reflexivity.
Qed.

Lemma split_idle_prefix pre r :
  forallb idle pre = true ->
  before_terminating (pre ++ r) = pre ++ before_terminating r
  /\ first_terminating (pre ++ r) = first_terminating r.
Proof.
  unfold first_terminating. intros Hpre.
  induction pre as [| a pre IH]; [split; reflexivity |].
  cbn [forallb] in Hpre. apply andb_true_iff in Hpre. destruct Hpre as [Ha Hpre].
  unfold idle in Ha. apply negb_true_iff in Ha.
  destruct (IH Hpre) as [IH1 IH2].
  cbn [app before_terminating find]. rewrite Ha, IH1, IH2. split; reflexivity.
Qed.

Lemma idle_trace_occurrences (p : Event -> bool) r :
  (forall c, p (Recv c) = false) -> (forall s, p (Emit s) = false) ->
  occurrences p (idle_trace r) = 0%nat.
Proof.
  intros Hr He. unfold idle_trace.
  induction r as [| c r IH]; [reflexivity |].
  cbn [flat_map]. rewrite occurrences_app, IH, Nat.add_0_r. unfold idle_events.
  destruct (svc.Cmd c =? svc.Interrogate);
    rewrite !occurrences_cons, ?Hr, ?He; reflexivity.
Qed.

(** X1.  [Execute] takes requests off the channel in order and stops
    taking them at the first Stop or Shutdown: what it has received is
    the requests up to and including that one, and nothing at all when
    Start failed. *)
Theorem Execute_receives_up_to_first_stop ws r :
  received (ex_trace (Execute ws r))
  = match i_Start (i ws) with
    | Some _ => []
    | None =>
      before_terminating r
        ++ match first_terminating r with Some c => [c] | None => [] end
    end
  /\ exists rest, r = received (ex_trace (Execute ws r)) ++ rest.
Proof.
  assert (H : received (ex_trace (Execute ws r))
              = match i_Start (i ws) with
                | Some _ => []
                | None =>
                  before_terminating r
                    ++ match first_terminating r with Some c => [c] | None => [] end
                end).
  { rewrite Execute_trace, received_app.
    change (received [Emit (StatusLit svc.StartPending 0); CallStart]) with (@nil svc.ChangeRequest).
    rewrite app_nil_l.
    destruct (i_Start (i ws)); [reflexivity |].
    change (received (Emit ?s :: ?l)) with (received l).
    rewrite received_app, received_idle_trace. f_equal.
    destruct (first_terminating r) as [c |]; [| reflexivity].
    rewrite received_app, received_error_events, app_nil_r.
    destruct (stop_call_cases ws c) as [-> | ->]; reflexivity. }
  split; [exact H |]. rewrite H.
  destruct (i_Start (i ws)); [exists r; reflexivity |].
  destruct (split_at_terminating r) as [_ Hsplit].
  destruct (first_terminating r) as [c |].
  - destruct Hsplit as (post & Hr & _). exists post.
    rewrite <- app_assoc. exact Hr.
  - exists []. rewrite !app_nil_r. exact Hsplit.
Qed.

(** X2.  In one run [Execute] calls Start exactly once, before it
    receives anything; it calls at most one of Stop and Shutdown, and
    none when Start failed or no Stop or Shutdown request came; a Stop
    request never reaches Shutdown; and the error slot is written at
    most once. *)
Theorem Execute_calls_each_callback_once ws r :
  let tr := ex_trace (Execute ws r) in
  (exists tr', tr = Emit (StatusLit svc.StartPending 0) :: CallStart :: tr')
  /\ occurrences is_CallStart tr = 1%nat
  /\ (occurrences is_CallStop tr + occurrences is_CallShutdown tr)%nat
     = match i_Start (i ws), first_terminating r with
       | None, Some _ => 1%nat
       | _, _ => 0%nat
       end
  /\ (forall c, first_terminating r = Some c -> svc.Cmd c = svc.Stop ->
                occurrences is_CallShutdown tr = 0%nat)
  /\ (occurrences is_SetError tr <= 1)%nat.
Proof.
  cbv zeta. rewrite Execute_trace.
  destruct (idle_trace_calls (before_terminating r)) as (Hs0 & Hp0 & Hd0).
  assert (He0 := idle_trace_occurrences is_SetError (before_terminating r)
                   (fun _ => eq_refl) (fun _ => eq_refl)).
  split; [eexists; reflexivity |].
  destruct (i_Start (i ws)) as [e |].
  { split; [reflexivity | split; [reflexivity | split; [intros; reflexivity | cbn; lia]]]. }
  rewrite !occurrences_app, !occurrences_cons, !occurrences_app.
  rewrite Hs0, Hp0, Hd0, He0.
  destruct (first_terminating r) as [c |].
  - rewrite !occurrences_app, !occurrences_cons,
      !error_events_calls by reflexivity.
    assert (Herr : (occurrences is_SetError (error_events (stop_answer ws c)) <= 1)%nat).
    { destruct (stop_answer ws c); cbn; lia. }
    split; [| split; [| split]].
    + destruct (stop_call_cases ws c) as [-> | ->]; reflexivity.
    + destruct (stop_call_cases ws c) as [-> | ->]; reflexivity.
    + intros c' [= <-] Hcmd. unfold stop_call. rewrite Hcmd. reflexivity.
    + destruct (stop_call_cases ws c) as [-> | ->]; cbn in *; lia.
  - split; [reflexivity | split; [reflexivity | split; [intros c [=] | cbn; lia]]].
Qed.

Lemma Execute_calls_each_callback_once_witness :
  let ws := client None None (Some None) in
  let tr := ex_trace (Execute ws [request svc.Interrogate running_status;
                                  request svc.Stop running_status;
                                  request svc.Shutdown running_status]) in
  occurrences is_CallStop tr = 1%nat /\ occurrences is_CallShutdown tr = 0%nat.
Proof.
  intros ws tr.
  destruct (Execute_calls_each_callback_once ws
              [request svc.Interrogate running_status;
               request svc.Stop running_status;
               request svc.Shutdown running_status])
    as (_ & _ & Hsum & Hstop & _).
  assert (H0 := Hstop (request svc.Stop running_status) eq_refl eq_refl).
  assert (Hsum' : (occurrences is_CallStop tr + occurrences is_CallShutdown tr)%nat = 1%nat)
    by exact Hsum.
  fold tr in H0. split; [lia | exact H0].
Defined.

(** X3.  Requests that are neither Stop nor Shutdown, in any number and
    in front of anything, change nothing of what the run does to the
    application: the same callbacks are called in the same order, the
    same error is recorded, and the same pair is returned. *)
Theorem Execute_ignores_idle_prefix ws pre r :
  forallb idle pre = true ->
  ex_out (Execute ws (pre ++ r)) = ex_out (Execute ws r)
  /\ ex_ws (Execute ws (pre ++ r)) = ex_ws (Execute ws r)
  /\ callbacks (ex_trace (Execute ws (pre ++ r))) = callbacks (ex_trace (Execute ws r))
  /\ (i_Start (i ws) = None ->
      emissions (ex_trace (Execute ws (pre ++ r)))
      = [StatusLit svc.StartPending 0; StatusLit svc.Running cmdsAccepted]
          ++ echoes pre ++ skipn 2 (emissions (ex_trace (Execute ws r)))).
Proof.
  intros Hpre. destruct (split_idle_prefix pre r Hpre) as [Hb Hf].
  rewrite !Execute_out, !Execute_ws, !Execute_trace, Hb, Hf.
  split; [reflexivity |]. split; [reflexivity |]. split.
  - rewrite !callbacks_app. f_equal.
    destruct (i_Start (i ws)); [reflexivity |].
    change (callbacks (Emit ?s :: ?l)) with (callbacks l).
    unfold idle_trace. rewrite flat_map_app. fold (idle_trace pre).
    fold (idle_trace (before_terminating r)).
    rewrite <- app_assoc, callbacks_app, callbacks_idle_trace. reflexivity.
  - intros Hstart. rewrite Hstart.
    rewrite !emissions_app.
    change (emissions [Emit (StatusLit svc.StartPending 0); CallStart])
      with [StatusLit svc.StartPending 0].
    rewrite !emissions_Emit.
    unfold idle_trace. rewrite flat_map_app. fold (idle_trace pre).
    fold (idle_trace (before_terminating r)).
    rewrite <- app_assoc, !emissions_app, emissions_idle_trace. reflexivity.
Qed.

Lemma Execute_ignores_idle_prefix_witness :
  let ws := client None (Some (ErrorString "busy")) None in
  let pre := [request svc.Interrogate running_status; request svc.Pause running_status] in
  let r := [request svc.Stop running_status] in
  ex_out (Execute ws (pre ++ r)) = Returned true 2
  /\ callbacks (ex_trace (Execute ws (pre ++ r)))
     = [CallStart; CallStop; SetError (Some (ErrorString "busy"))].
Proof.
  intros ws pre r.
  destruct (Execute_ignores_idle_prefix ws pre r) as (Ho & _ & Hc & _); [reflexivity |].
  split; [rewrite Ho | rewrite Hc]; reflexivity.
Defined.



Lemma Run_service h ws r :
  interactive h = false -> host_requests h = Some r ->
  let x := Execute (setError None ws) r in
  Run h ws
  = match ex_out x with
    | Returned _ _ =>
      {| run_trace := SetError None :: HostRun (Name (cfg ws))
                        :: ex_trace x ++ [HostReturn (host_runErr h)];
         run_ws := ex_ws x;
         run_result :=
           match getError (ex_ws x) with
           | Some e => RunReturns (Some e)
           | None => RunReturns (host_runErr h)
           end |}
    | Blocked =>
      {| run_trace := SetError None :: HostRun (Name (cfg ws)) :: ex_trace x;
         run_ws := ex_ws x; run_result := RunBlocks |}
    end.
Proof.
  intros Hni Hr. unfold Run. rewrite Hni. cbn [negb].
  rewrite (svc_Run_dispatch h (setError None ws) r Hr). cbv zeta.
  destruct (ex_out (Execute (setError None ws) r)); [| reflexivity].
  cbn [setError cfg]. destruct (getError _); [reflexivity |].
  destruct (host_runErr h); reflexivity.
Qed.

(** X5.  As a service, [Run] comes back only when the host could not
    dispatch, when Start failed, or when a Stop or Shutdown request has
    been handled: it stays blocked exactly when the host dispatched,
    Start succeeded and no such request ever came. *)
Theorem Run_returns_only_after_stop_or_failure h ws :
  interactive h = false ->
  (run_result (Run h ws) = RunBlocks
   <-> exists r, host_requests h = Some r
                 /\ i_Start (i ws) = None /\ first_terminating r = None).
Proof.
  intros Hni. destruct (host_requests h) as [r |] eqn:Hr.
  - rewrite (Run_service h ws r Hni Hr). cbv zeta. rewrite Execute_out.
    cbn [setError i].
    split.
    + intros H. exists r. split; [reflexivity |].
      destruct (i_Start (i ws)).
      { cbn in H. destruct (getError _); discriminate. }
      destruct (first_terminating r) as [c |]; [| split; reflexivity].
      destruct (stop_answer _ c); cbn in H; destruct (getError _); discriminate.
    + intros (r' & [= <-] & Hs & Hf). rewrite Hs, Hf. reflexivity.
  - split.
    + unfold Run, svc_Run. rewrite Hni, Hr. cbn.
      destruct (host_runErr h); discriminate.
    + intros (r & [=] & _).
Qed.

Lemma Run_returns_only_after_stop_or_failure_witness :
  run_result (Run (service_host [request svc.Interrogate running_status] None) agent)
  = RunBlocks.
Proof.
  apply (Run_returns_only_after_stop_or_failure
           (service_host [request svc.Interrogate running_status] None) agent);
    [reflexivity |].
  exists [request svc.Interrogate running_status]. repeat split.
Defined.

(** X6.  When [Run] returns nil, nothing failed: the host's run
    primitive, if there was one, returned nil, the error slot is empty,
    and every callback that was called returned nil. *)
Theorem Run_nil_means_nothing_failed h ws :
  run_result (Run h ws) = RunReturns None ->
  let tr := run_trace (Run h ws) in
  getError (run_ws (Run h ws)) = None
  /\ (interactive h = false -> host_runErr h = None)
  /\ (occurrences is_CallStart tr <> 0%nat -> i_Start (i ws) = None)
  /\ (occurrences is_CallStop tr <> 0%nat -> i_Stop (i ws) = None)
  /\ (occurrences is_CallShutdown tr <> 0%nat -> i_Shutdown (i ws) = Some None).
Proof.
  destruct (interactive h) eqn:Hi.
  - unfold Run. rewrite Hi. cbn [negb setError i].
    destruct (i_Start (i ws)) as [e |]; [discriminate |].
    destruct (host_interrupt h); [| discriminate].
    cbn. intros [= Hstop]. repeat split; try reflexivity; try discriminate; auto.
    intros H; exfalso; apply H; reflexivity.
  - destruct (host_requests h) as [r |] eqn:Hr.
    + rewrite (Run_service h ws r Hi Hr). cbv zeta.
      rewrite Execute_out, Execute_ws, Execute_trace. cbn [setError i].
      destruct (i_Start (i ws)) as [e |]; [discriminate |].
      destruct (first_terminating r) as [c |]; [| discriminate].
      change (stop_answer (setError None ws) c) with (stop_answer ws c).
      change (stop_call (setError None ws) c) with (stop_call ws c).
      destruct (stop_answer ws c) as [e |] eqn:Ha; [discriminate |].
      cbn [getError stopStartErr setError run_result run_ws run_trace].
      intros [= Hrun].
      split; [reflexivity |]. split; [intros _; exact Hrun |].
      split; [intros _; reflexivity |].
      assert (Hcount : forall p : Event -> bool,
                 p (SetError None) = false -> (forall n, p (HostRun n) = false) ->
                 (forall s, p (Emit s) = false) -> p CallStart = false ->
                 (forall q, p (Recv q) = false) -> (forall e, p (HostReturn e) = false) ->
                 p (stop_call ws c) = false ->
                 occurrences p
                   (SetError None :: HostRun (Name (cfg ws))
                      :: ([Emit (StatusLit svc.StartPending 0); CallStart]
                            ++ Emit (StatusLit svc.Running cmdsAccepted)
                               :: idle_trace (before_terminating r)
                               ++ [Recv c; Emit (StatusLit svc.StopPending 0); stop_call ws c]
                               ++ error_events None)
                      ++ [HostReturn (host_runErr h)]) = 0%nat).
      { intros p H1 H2 H3 H4 H5 H6 H7.
        rewrite !occurrences_cons, !occurrences_app, !occurrences_cons,
          !occurrences_app, !occurrences_cons.
        rewrite (idle_trace_occurrences p _ H5 H3).
        rewrite H1, H2, !H3, H4, H5, H6, H7. reflexivity. }
      unfold stop_answer, stop_call in *.
      destruct (svc.Cmd c =? svc.Stop).
      * split; [intros _; exact Ha |].
        intros H. exfalso. apply H. apply Hcount; reflexivity || (intros; reflexivity).
      * destruct (i_Shutdown (i ws)) as [res |].
        -- split; [| intros _; rewrite Ha; reflexivity].
           intros H. exfalso. apply H. apply Hcount; reflexivity || (intros; reflexivity).
        -- split; [intros _; exact Ha |].
           intros H. exfalso. apply H. apply Hcount; reflexivity || (intros; reflexivity).
    + unfold Run, svc_Run. rewrite Hi, Hr. cbn.
      destruct (host_runErr h) as [e |] eqn:He; [discriminate |].
      intros _. repeat split; try reflexivity; intros H; exfalso; apply H; reflexivity.
Qed.

Lemma Run_nil_means_nothing_failed_witness :
  let h := service_host [request svc.Stop running_status] None in
  run_result (Run h agent) = RunReturns None
  /\ getError (run_ws (Run h agent)) = None.
Proof.
  intros h.
  destruct (Run_nil_means_nothing_failed h agent) as (Hslot & _); [reflexivity |].
  split; [reflexivity | exact Hslot].
Defined.

(** X7.  In a terminal [Run] goes around the host and the dispatch
    loop: no status is sent, no request received, the error slot stays
    empty.  It calls Start; when Start fails it returns that error and
    never calls Stop; otherwise it waits for the interrupt and returns
    what Stop returns. *)
Theorem Run_interactive_bypasses_dispatch h ws :
  interactive h = true ->
  let x := Run h ws in
  emissions (run_trace x) = [] /\ received (run_trace x) = []
  /\ occurrences is_HostRun (run_trace x) = 0%nat
  /\ getError (run_ws x) = None
  /\ occurrences is_CallStart (run_trace x) = 1%nat
  /\ (forall e, i_Start (i ws) = Some e ->
                run_result x = RunReturns (Some e)
                /\ occurrences is_CallStop (run_trace x) = 0%nat)
  /\ (i_Start (i ws) = None ->
      run_result x = (if host_interrupt h then RunReturns (i_Stop (i ws)) else RunBlocks)
      /\ occurrences is_CallStop (run_trace x) = (if host_interrupt h then 1%nat else 0%nat)).
Proof.
  intros Hi. unfold Run. rewrite Hi. cbn [negb setError i].
  destruct (i_Start (i ws)) as [e |].
  - repeat split; try reflexivity; intros; try discriminate.
    + injection H as <-. reflexivity.
  - destruct (host_interrupt h); repeat split; try reflexivity; intros; discriminate.
Qed.

Lemma Run_interactive_bypasses_dispatch_witness :
  let ws := client None (Some (ErrorString "busy")) None in
  run_result (Run (terminal true) ws) = RunReturns (Some (ErrorString "busy"))
  /\ emissions (run_trace (Run (terminal true) ws)) = [].
Proof.
  intros ws.
  destruct (Run_interactive_bypasses_dispatch (terminal true) ws)
    as (Hem & _ & _ & _ & _ & _ & Hstop); [reflexivity |].
  destruct Hstop as [Hres _]; [reflexivity |].
  split; [exact Hres | exact Hem].
Defined.

(** ** The operations on the installed instance *)

Lemma getStopTimeout_extends w h :
  exists more,
    snd (getStopTimeout w h) = h ++ more
    /\ forallb is_registry_call more = true
    /\ calls is_RegKeyClose more = 0%nat
    /\ (List.length more <= 2)%nat.
Proof.
  unfold getStopTimeout. run.
  destruct (w_err w h _); cbn [snd].
  - eexists. split; [reflexivity |]. cbn. repeat split; lia.
  - destruct (w_string w _ _) as [err | sv]; [| destruct (Atoi sv)]; cbn [snd];
      rewrite <- ?app_assoc; eexists; (split; [reflexivity |]); cbn; repeat split; lia.
Qed.

Lemma stopWait_extends w ws h :
  exists more, snd (stopWait w ws h) = h ++ more.
Proof.
  rewrite stopWait_run.
  destruct (w_status w h (SvcControl svc.Stop)) as [err | status]; cbn [snd].
  - eexists; reflexivity.
  - rewrite with_timer_run. cbv zeta. cbn [snd].
    destruct (getStopTimeout_extends w (h ++ [SvcControl svc.Stop])) as (m1 & H1 & _).
    rewrite H1.
    match goal with
    | |- context [stopWait_loop w ws ?n status ?hh] =>
      destruct (stopWait_loop_polls w ws n status hh) as (m2 & H2 & _)
    end.
    rewrite H2, <- !app_assoc. eexists; reflexivity.
Qed.

(** X8.  [Status] only reads: it opens, queries and closes, and makes
    no other call.  It returns Unknown exactly when it returns an
    error, so Running and Stopped always come with a nil error. *)
Theorem Status_unknown_iff_error w ws h :
  (exists more,
      snd (Status w ws h) = h ++ more /\ forallb is_read_only more = true)
  /\ (fst (fst (Status w ws h)) = StatusUnknown <-> snd (fst (Status w ws h)) <> None).
Proof.
  unfold Status. run.
  destruct (w_err w h OpenSCManager).
  { cbn. split; [eexists; split; reflexivity |]. split; [discriminate | reflexivity]. }
  destruct (w_err w (h ++ [OpenSCManager]) (OpenServiceLow (Name (cfg ws)))) as [err |].
  { destruct (isServiceDoesNotExist err); cbn [fst snd]; rewrite <- ?app_assoc;
      (split; [eexists; split; reflexivity |]); split; (discriminate || reflexivity). }
  destruct (w_status w _ SvcQuery) as [err | status].
  { cbn [fst snd]. rewrite <- ?app_assoc.
    split; [eexists; split; reflexivity |]. split; [discriminate | reflexivity]. }
  destruct ((svc.State status =? svc.StartPending) || (svc.State status =? svc.Running));
    [| destruct ((svc.State status =? svc.PausePending) || (svc.State status =? svc.Paused)
                 || (svc.State status =? svc.ContinuePending)
                 || (svc.State status =? svc.StopPending)
                 || (svc.State status =? svc.Stopped))];
    cbn [fst snd]; rewrite <- ?app_assoc;
    (split; [eexists; split; reflexivity |]); split;
    try discriminate; try reflexivity; intros H; exfalso; apply H; reflexivity.
Qed.

Lemma Status_unknown_iff_error_witness :
  fst (fst (Status not_installed agent [])) = StatusUnknown
  /\ snd (fst (Status not_installed agent [])) <> None.
Proof.
  destruct (Status_unknown_iff_error not_installed agent []) as (_ & Hiff).
  split; [reflexivity |]. apply Hiff. reflexivity.
Defined.

(** X9.  [Start] does not wait: it opens the instance, issues the start
    at most once, and returns what the start returned, with no query,
    no timer and no registry read.  When the manager or the instance
    cannot be opened it returns that error and issues no start. *)
Theorem Start_issues_one_start w ws h :
  let name := Name (cfg ws) in
  (exists more,
      snd (Start w ws h) = h ++ more
      /\ calls is_wait_call more = 0%nat
      /\ calls is_SvcStart more
         = match w_err w h OpenSCManager,
                 w_err w (h ++ [OpenSCManager]) (OpenServiceLow name) with
           | None, None => 1%nat
           | _, _ => 0%nat
           end)
  /\ (forall err, w_err w h OpenSCManager = Some err -> fst (Start w ws h) = Some err)
  /\ (forall err,
         w_err w h OpenSCManager = None ->
         w_err w (h ++ [OpenSCManager]) (OpenServiceLow name) = Some err ->
         fst (Start w ws h) = Some err)
  /\ (w_err w h OpenSCManager = None ->
      w_err w (h ++ [OpenSCManager]) (OpenServiceLow name) = None ->
      fst (Start w ws h) = w_err w (h ++ [OpenSCManager; OpenServiceLow name]) SvcStart).
Proof.
  intros name. unfold Start. run. fold name.
  destruct (w_err w h OpenSCManager) as [e |].
  { split; [eexists; repeat split |]. repeat split; intros; cbn [fst]; congruence. }
  destruct (w_err w (h ++ [OpenSCManager]) (OpenServiceLow name)) as [e |].
  { cbn [fst snd]. rewrite <- ?app_assoc.
    split; [eexists; repeat split |]. repeat split; intros; cbn [fst]; congruence. }
  cbn [fst snd]. rewrite <- ?app_assoc. cbn [app].
  split; [eexists; repeat split |]. repeat split; intros; cbn [fst]; congruence.
Qed.

Lemma Start_issues_one_start_witness :
  fst (Start start_refused agent []) = Some (Errno 1058 "The service cannot be started.")
  /\ fst (Start not_installed agent [])
     = Some (Errno 1060 "The specified service does not exist as an installed service.").
Proof.
  destruct (Start_issues_one_start start_refused agent []) as (_ & _ & _ & Hok).
  destruct (Start_issues_one_start not_installed agent []) as (_ & _ & Hmissing & _).
  split.
  - rewrite Hok; reflexivity.
  - apply Hmissing; reflexivity.
Defined.

(** X10.  [Stop] starts its wait only once the stop control has been
    accepted: the kill timeout is read, the timer armed and the
    instance queried only after both opens and the control succeeded.
    A refused control is returned at once, the handles released. *)
Theorem Stop_waits_only_after_control w ws h :
  let name := Name (cfg ws) in
  let opened := h ++ [OpenSCManager; OpenServiceLow name] in
  (exists more,
      snd (Stop w ws h) = h ++ more
      /\ (calls is_SvcControl more <= 1)%nat
      /\ (calls is_wait_call more <> 0%nat ->
          w_err w h OpenSCManager = None
          /\ w_err w (h ++ [OpenSCManager]) (OpenServiceLow name) = None
          /\ exists status, w_status w opened (SvcControl svc.Stop) = inr status))
  /\ (forall err,
         w_err w h OpenSCManager = None ->
         w_err w (h ++ [OpenSCManager]) (OpenServiceLow name) = None ->
         w_status w opened (SvcControl svc.Stop) = inl err ->
         Stop w ws h
         = (Some err, opened ++ [SvcControl svc.Stop; SvcClose; MgrDisconnect])).
Proof.
  intros name opened. split.
  - destruct (w_err w h OpenSCManager) as [e |] eqn:Hm.
    { unfold Stop. run. rewrite Hm. cbn [snd]. eexists. split; [reflexivity |].
      split; [cbn; lia |]. intros H; exfalso; apply H; reflexivity. }
    destruct (w_err w (h ++ [OpenSCManager]) (OpenServiceLow name)) as [e |] eqn:Hs.
    { unfold Stop. run. fold name. rewrite Hm, Hs. cbn [snd]. rewrite <- ?app_assoc.
      eexists. split; [reflexivity |].
      split; [cbn; lia |]. intros H; exfalso; apply H; reflexivity. }
    rewrite (Stop_run w ws h Hm Hs). fold name. fold opened. cbv zeta. cbn [snd].
    rewrite stopWait_run.
    destruct (w_status w opened (SvcControl svc.Stop)) as [err | status] eqn:Hc.
    + cbn [snd]. unfold opened. rewrite <- !app_assoc. eexists. split; [reflexivity |].
      split; [cbn; lia |]. intros H; exfalso; apply H; reflexivity.
    + assert (Hcalls := stopWait_calls w ws is_SvcControl opened).
      destruct (stopWait_extends w ws opened) as (m & Hm2).
      rewrite stopWait_run, Hc in Hm2.
      rewrite Hm2. unfold opened. rewrite <- !app_assoc. eexists. split; [reflexivity |].
      split; [| intros _; repeat split; eexists; reflexivity].
      assert (Hctl : calls is_SvcControl (snd (stopWait w ws opened))
                     = (calls is_SvcControl opened + calls is_SvcControl m)%nat).
      { rewrite stopWait_run, Hc, Hm2, calls_app. reflexivity. }
      rewrite stopWait_run, Hc in Hctl.
      assert (Hone : (calls is_SvcControl m <= 1)%nat).
      { clear Hcalls Hctl. rewrite with_timer_run in Hm2. cbv zeta in Hm2. cbn [snd] in Hm2.
        destruct (getStopTimeout_extends w (opened ++ [SvcControl svc.Stop]))
          as (m1 & H1 & Hreg & _).
        rewrite H1 in Hm2.
        match type of Hm2 with
        | context [stopWait_loop w ws ?n status ?hh] =>
          assert (Hl := stopWait_loop_calls w ws is_SvcControl n eq_refl eq_refl eq_refl
                          status hh);
          destruct (stopWait_loop_polls w ws n status hh) as (m2 & H2 & _)
        end.
        rewrite H2 in Hm2, Hl. rewrite <- !app_assoc in Hm2.
        apply app_inv_head in Hm2. subst m.
        rewrite !calls_app in Hl. rewrite !calls_app.
        assert (Hr : calls is_SvcControl m1 = 0%nat).
        { clear - Hreg. induction m1 as [| c m1 IH]; [reflexivity |].
          cbn [forallb] in Hreg. apply andb_true_iff in Hreg. destruct Hreg as [Hc Hreg].
          change (c :: m1) with ([c] ++ m1). rewrite calls_app, (IH Hreg), calls_one.
          destruct c; try discriminate; reflexivity. }
        cbn in Hl |- *. lia. }
      rewrite !calls_app. cbn. lia.
  - intros err Hm Hs Hc. rewrite (Stop_run w ws h Hm Hs). fold name. fold opened.
    cbv zeta. rewrite stopWait_run, Hc. cbn [fst snd]. rewrite <- ?app_assoc. reflexivity.
Qed.

Lemma Stop_waits_only_after_control_witness :
  Stop not_active agent []
  = (Some (Errno 1062 "The service has not been started."),
     [OpenSCManager; OpenServiceLow "agent"; SvcControl svc.Stop; SvcClose; MgrDisconnect]).
Proof.
  destruct (Stop_waits_only_after_control not_active agent []) as (_ & Hrefused).
  apply Hrefused; reflexivity.
Defined.

(** X11.  [Restart] is [Stop] followed by a start on the same handles:
    when [Stop] would fail, [Restart] makes the same calls and returns
    the same error; when [Stop] would succeed, [Restart] makes the
    calls of [Stop] with the start put in before the handles are
    released, and returns what the start returned. *)
Theorem Restart_is_Stop_then_start w ws h :
  (forall err, fst (Stop w ws h) = Some err -> Restart w ws h = Stop w ws h)
  /\ (fst (Stop w ws h) = None ->
      exists hs,
        Stop w ws h = (None, hs ++ [SvcClose; MgrDisconnect])
        /\ Restart w ws h
           = (w_err w hs SvcStart, hs ++ [SvcStart; SvcClose; MgrDisconnect])).
Proof.
  destruct (w_err w h OpenSCManager) as [e |] eqn:Hm.
  { unfold Stop, Restart. run. rewrite Hm. split; [reflexivity | discriminate]. }
  destruct (w_err w (h ++ [OpenSCManager]) (OpenServiceLow (Name (cfg ws)))) as [e |] eqn:Hs.
  { unfold Stop, Restart. run. rewrite Hm, Hs. split; [reflexivity | discriminate]. }
  rewrite (Stop_run w ws h Hm Hs), (Restart_run w ws h Hm Hs). cbv zeta.
  destruct (stopWait w ws _) as [[err |] hs]; cbn [fst snd].
  - split; [reflexivity | discriminate].
  - split; [discriminate |]. intros _. exists hs. split; reflexivity.
Qed.

Lemma Restart_is_Stop_then_start_witness :
  Restart query_fails agent [] = Stop query_fails agent []
  /\ fst (Restart start_refused agent [])
     = Some (Errno 1058 "The service cannot be started.").
Proof.
  destruct (Restart_is_Stop_then_start query_fails agent []) as (Hfail & _).
  destruct (Restart_is_Stop_then_start start_refused agent []) as (_ & Hok).
  split.
  - apply (Hfail (Errno 1726 "The remote procedure call failed.")). reflexivity.
  - destruct Hok as (hs & Hstop & Hrestart); [reflexivity |].
    assert (Hhs : hs ++ [SvcClose; MgrDisconnect]
                  = [OpenSCManager; OpenServiceLow "agent"; SvcControl 1;
                     RegOpenKey "SYSTEM\CurrentControlSet\Control";
                     RegGetStringValue "WaitToKillServiceTimeout";
                     TimeAfter 20100000000; NewTicker 50000000; TickerStop]
                      ++ [SvcClose; MgrDisconnect]).
    { apply (f_equal snd) in Hstop. cbn [snd] in Hstop. rewrite <- Hstop. reflexivity. }
    apply app_inv_tail in Hhs. rewrite Hrestart, Hhs. reflexivity.
Defined.

Lemma stopWait_handles w ws h :
  exists more,
    snd (stopWait w ws h) = h ++ more
    /\ calls is_OpenSCManager more = 0%nat
    /\ calls is_MgrDisconnect more = 0%nat
    /\ calls is_SvcClose more = 0%nat
    /\ calls is_SvcStart more = 0%nat.
Proof.
  destruct (stopWait_extends w ws h) as (more & Hmore). exists more.
  split; [exact Hmore |].
  assert (H : forall p, calls p (snd (stopWait w ws h)) = calls p h -> calls p more = 0%nat).
  { intros p Hp. rewrite Hmore, calls_app in Hp. lia. }
  repeat split; apply H; apply stopWait_calls; reflexivity.
Qed.

Lemma releases_no_manager w ws h e :
  w_err w h OpenSCManager = Some e ->
  releases_handles w ws h (h ++ [OpenSCManager]).
Proof.
  intros Hm. exists [OpenSCManager]. rewrite Hm.
  repeat split. discriminate.
Qed.

Lemma releases_no_instance w ws h e :
  w_err w h OpenSCManager = None ->
  w_err w (h ++ [OpenSCManager]) (OpenServiceLow (Name (cfg ws))) = Some e ->
  releases_handles w ws h
    (h ++ [OpenSCManager; OpenServiceLow (Name (cfg ws)); MgrDisconnect]).
Proof.
  intros Hm Hs. eexists. rewrite Hm, Hs. split; [reflexivity |].
  repeat split. intros _. exists [OpenSCManager; OpenServiceLow (Name (cfg ws))].
  reflexivity.
Qed.

Lemma releases_both w ws h mid :
  w_err w h OpenSCManager = None ->
  w_err w (h ++ [OpenSCManager]) (OpenServiceLow (Name (cfg ws))) = None ->
  calls is_OpenSCManager mid = 0%nat ->
  calls is_MgrDisconnect mid = 0%nat ->
  calls is_SvcClose mid = 0%nat ->
  releases_handles w ws h
    (h ++ [OpenSCManager; OpenServiceLow (Name (cfg ws))] ++ mid
       ++ [SvcClose; MgrDisconnect]).
Proof.
  intros Hm Hs H1 H2 H3. eexists. rewrite Hm, Hs. split; [reflexivity |].
  rewrite !calls_app, H1, H2, H3.
  split; [reflexivity |]. split; [reflexivity |]. split; [reflexivity |].
  intros _. exists ([OpenSCManager; OpenServiceLow (Name (cfg ws))] ++ mid ++ [SvcClose]).
  rewrite <- !app_assoc. reflexivity.
Qed.

(** X12.  [Status], [Start], [Stop] and [Restart] release what they
    acquire on every path: each asks for the manager once, disconnects
    from it exactly when it got it, as its last call, and closes
    the instance exactly when it got that. *)
Theorem operations_release_handles w ws h :
  releases_handles w ws h (snd (Status w ws h))
  /\ releases_handles w ws h (snd (Start w ws h))
  /\ releases_handles w ws h (snd (Stop w ws h))
  /\ releases_handles w ws h (snd (Restart w ws h)).
Proof.
  destruct (w_err w h OpenSCManager) as [e |] eqn:Hm.
  { assert (Hr := releases_no_manager w ws h e Hm).
    unfold Status, Start, Stop, Restart. run. rewrite Hm. cbn [snd].
    repeat split; exact Hr. }
  destruct (w_err w (h ++ [OpenSCManager]) (OpenServiceLow (Name (cfg ws)))) as [e |] eqn:Hs.
  { assert (Hr := releases_no_instance w ws h e Hm Hs).
    unfold Status, Start, Stop, Restart. run. rewrite Hm, Hs.
    destruct (isServiceDoesNotExist e); cbn [snd]; rewrite <- !app_assoc;
      repeat split; exact Hr. }
  assert (Hboth := fun mid => releases_both w ws h mid Hm Hs).
  destruct (stopWait_handles w ws (h ++ [OpenSCManager; OpenServiceLow (Name (cfg ws))]))
    as (mw & Hmw & Hw1 & Hw2 & Hw3 & _).
  split; [| split; [| split]].
  - assert (Hq := Hboth [SvcQuery] eq_refl eq_refl eq_refl).
    unfold Status. run. rewrite Hm, Hs.
    destruct (w_status w _ SvcQuery) as [err | status];
      [| destruct ((svc.State status =? svc.StartPending) || (svc.State status =? svc.Running));
         [| destruct ((svc.State status =? svc.PausePending) || (svc.State status =? svc.Paused)
                      || (svc.State status =? svc.ContinuePending)
                      || (svc.State status =? svc.StopPending)
                      || (svc.State status =? svc.Stopped))]];
      cbn [snd]; rewrite <- !app_assoc; exact Hq.
  - assert (Hq := Hboth [SvcStart] eq_refl eq_refl eq_refl).
    unfold Start. run. rewrite Hm, Hs. cbn [snd]. rewrite <- !app_assoc. exact Hq.
  - rewrite (Stop_run w ws h Hm Hs). cbv zeta. cbn [snd]. rewrite Hmw.
    rewrite <- !app_assoc. exact (Hboth mw Hw1 Hw2 Hw3).
  - rewrite (Restart_run w ws h Hm Hs). cbv zeta. rewrite Hmw.
    destruct (fst (stopWait w ws _)); cbn [snd]; rewrite <- !app_assoc.
    + exact (Hboth mw Hw1 Hw2 Hw3).
    + assert (Hq := Hboth (mw ++ [SvcStart])).
      rewrite !calls_app, Hw1, Hw2, Hw3, <- !app_assoc in Hq.
      exact (Hq eq_refl eq_refl eq_refl).
Qed.

(** *** The kill timeout *)

Lemma digits_all_digits s :
  forall acc n, digits s acc = Some n -> all_digits s = true.
Proof.
  induction s as [| c s IH]; intros acc n H; [reflexivity |].
  cbn [digits] in H. cbn [all_digits]. unfold is_digit.
  destruct (digit_of c) as [d |]; [| discriminate].
  cbn [andb]. exact (IH _ _ H).
Qed.

Lemma Atoi_body_digits (neg : bool) body v :
  match body with
  | EmptyString => None
  | _ =>
    match digits body 0 with
    | None => None
    | Some n =>
      let v := if neg then - n else n in
      if (- 2 ^ 63 <=? v) && (v <=? 2 ^ 63 - 1) then Some v else None
    end
  end = Some v ->
  all_digits body = true.
Proof.
  destruct body as [| c s]; [discriminate |].
  destruct (digits (String c s) 0) as [n |] eqn:Hd; [| discriminate].
  intros _. exact (digits_all_digits _ _ _ Hd).
Qed.

Lemma Atoi_signed_digits sv v : Atoi sv = Some v -> signed_digits sv = true.
Proof.
  unfold Atoi, signed_digits.
  destruct sv as [| c s]; [discriminate |].
  destruct c as [[] [] [] [] [] [] [] []];
    match goal with
    | |- _ -> all_digits ?b = true =>
      first [exact (Atoi_body_digits true b v) | exact (Atoi_body_digits false b v)]
    end.
Qed.

(** X13.  getStopTimeout never fails and only reads: it opens the key,
    reads the value when the key opened, and never closes the key.  It
    answers 20 seconds unless the value is an optional sign followed by
    decimal digits only; then it answers that many milliseconds, exactly
    so for values up to 9223372036854 either way, with the deadlines of
    both waits 100ms and 200ms above it. *)
Theorem getStopTimeout_falls_back w h :
  let kill := fst (getStopTimeout w h) in
  let value := w_string w (h ++ [RegOpenKey "SYSTEM\CurrentControlSet\Control"])
                 (RegGetStringValue "WaitToKillServiceTimeout") in
  (exists more,
      snd (getStopTimeout w h) = h ++ more
      /\ forallb is_registry_call more = true
      /\ calls is_RegKeyClose more = 0%nat
      /\ (List.length more <= 2)%nat)
  /\ (kill <> 20000 * Millisecond ->
      w_err w h (RegOpenKey "SYSTEM\CurrentControlSet\Control") = None
      /\ exists sv v,
          value = inr sv /\ signed_digits sv = true /\ Atoi sv = Some v
          /\ kill = wrap64 (Millisecond * v))
  /\ (forall sv v,
         w_err w h (RegOpenKey "SYSTEM\CurrentControlSet\Control") = None ->
         value = inr sv -> Atoi sv = Some v ->
         - 9223372036854 <= v <= 9223372036654 ->
         kill = v * Millisecond
         /\ dadd kill (dmul (dmul Millisecond 50) 2) = (v + 100) * Millisecond
         /\ dadd kill (dmul (dmul Millisecond 100) 2) = (v + 200) * Millisecond).
Proof.
  intros kill value.
  split; [apply getStopTimeout_extends |].
  subst kill value. unfold getStopTimeout. run.
  destruct (w_err w h (RegOpenKey "SYSTEM\CurrentControlSet\Control")).
  { split; [intros H; exfalso; apply H; reflexivity | intros; discriminate]. }
  destruct (w_string w _ _) as [err | sv].
  { split; [intros H; exfalso; apply H; reflexivity | intros; discriminate]. }
  destruct (Atoi sv) as [v |] eqn:Hv.
  - cbn [fst]. split.
    + intros _. split; [reflexivity |]. exists sv, v.
      repeat split; [exact (Atoi_signed_digits _ _ Hv) | exact Hv].
    + intros sv' v' _ [= <-] Hv' Hrange.
      assert (v' = v) by congruence. subst v'.
      unfold dadd, dmul.
      change (wrap64 (wrap64 (Millisecond * 50) * 2)) with 100000000.
      change (wrap64 (wrap64 (Millisecond * 100) * 2)) with 200000000.
      unfold Millisecond in *.
      rewrite (wrap64_in_range (1000000 * v)) by lia.
      rewrite !wrap64_in_range by lia. lia.
  - split; [intros H; exfalso; apply H; reflexivity |].
    intros sv' v' _ [= <-] Hv'. congruence.
Qed.

Lemma getStopTimeout_falls_back_witness :
  let w := stops_after "300" 3 running_status in
  fst (getStopTimeout w []) = 300 * Millisecond
  /\ dadd (fst (getStopTimeout w [])) (dmul (dmul Millisecond 50) 2) = 400 * Millisecond.
Proof.
  intros w.
  destruct (getStopTimeout_falls_back w []) as (_ & _ & Hexact).
  destruct (Hexact "300"%string 300) as (Hk & Hd & _); [reflexivity .. | lia |].
  split; assumption.
Defined.

Lemma operations_release_handles_witness :
  exists more',
    snd (Restart start_refused agent []) = more' ++ [MgrDisconnect]
    /\ calls is_SvcClose (snd (Restart start_refused agent [])) = 1%nat.
Proof.
  destruct (operations_release_handles start_refused agent [])
    as (_ & _ & _ & more & Hmore & _ & _ & Hclose & Hlast).
  destruct Hlast as (more' & Hlast); [reflexivity |].
  exists more'. rewrite Hmore. split; [rewrite Hlast; reflexivity |].
  rewrite calls_app. exact Hclose.
Defined.




(** ** Install and Uninstall *)

Lemma setEnvironmentVariablesInRegistry_run w ws h :
  setEnvironmentVariablesInRegistry w ws h
  = match EnvVars (cfg ws) with
    | [] => (None, h)
    | _ :: _ =>
      match w_err w h (RegCreateKey ("SYSTEM\CurrentControlSet\Services\"
                                       ++ Name (cfg ws))%string) with
      | Some err =>
        (Some (ErrorString
                 ("failed creating env var registry key, err = " ++ Error err)%string),
         h ++ firstn 1 (env_calls ws))
      | None =>
        match w_err w (h ++ firstn 1 (env_calls ws))
                    (RegSetStringsValue "Environment" (envStrings ws)) with
        | Some err =>
          (Some (ErrorString
                   ("failed setting env var registry key, err = " ++ Error err)%string),
           h ++ firstn 2 (env_calls ws))
        | None =>
          match w_err w (h ++ firstn 2 (env_calls ws)) RegKeyClose with
          | Some err =>
            (Some (ErrorString
                     ("failed closing env var registry key, err = " ++ Error err)%string),
             h ++ env_calls ws)
          | None => (None, h ++ env_calls ws)
          end
        end
      end
    end.
Proof.
  unfold setEnvironmentVariablesInRegistry. run.
  destruct (EnvVars (cfg ws)) as [| kv l] eqn:He; [reflexivity |].
  unfold env_calls, envStrings. rewrite He.
  cbn [List.length Nat.eqb firstn].
  destruct (w_err w h _); [reflexivity |].
  destruct (w_err w (h ++ _) (RegSetStringsValue _ _)); [rewrite <- app_assoc; reflexivity |].
  rewrite <- !app_assoc. cbn [app].
  destruct (w_err w _ RegKeyClose); reflexivity.
Qed.



Lemma Install_create_run w ws exepath h h3 :
  setEnvironmentVariablesInRegistry w ws h = (None, h3) ->
  w_err w h3 (MgrOpenService (Name (cfg ws))) <> None ->
  let opened := h3 ++ [MgrOpenService (Name (cfg ws))] in
  Install_create w ws exepath h
  = match w_err w opened (create_call ws exepath) with
    | Some err => (Some err, opened ++ [create_call ws exepath])
    | None =>
      if negb (kv_string (Option (cfg ws)) OnFailure "" =? "")%string then
        (w_err w (opened ++ [create_call ws exepath]) (recovery_call w ws),
         opened ++ [create_call ws exepath; recovery_call w ws])
      else (None, opened ++ [create_call ws exepath])
    end.
Proof.
  intros Henv Hopen opened. unfold Install_create. unfold bind at 1. rewrite Henv.
  run. destruct (w_err w h3 (MgrOpenService (Name (cfg ws)))); [| contradiction].
  fold opened. change (CreateService _ _ _ _) with (create_call ws exepath).
  destruct (w_err w opened (create_call ws exepath)); [reflexivity |].
  destruct (negb _); [| reflexivity].
  change (SetRecoveryActions _ _ _) with (recovery_call w ws).
  rewrite <- app_assoc. reflexivity.
Qed.

Lemma Install_run w ws h exepath :
  w_string w h ExecPath = inr exepath ->
  w_err w (h ++ [ExecPath]) MgrConnect = None ->
  Install w ws h
  = let created := Install_create w ws exepath (h ++ [ExecPath; MgrConnect]) in
    match fst created with
    | Some err => (Some err, snd created ++ [MgrDisconnect])
    | None =>
      (fst (Install_eventlog w ws (snd created)),
       snd (Install_eventlog w ws (snd created)) ++ [MgrDisconnect])
    end.
Proof.
  intros Hx Hm. unfold Install. run. rewrite Hx, Hm.
  rewrite <- app_assoc. cbn [app].
  destruct (Install_create w ws exepath _) as [[err |] hc]; cbn [fst snd];
    [reflexivity |].
  destruct (Install_eventlog w ws hc). reflexivity.
Qed.

Lemma Install_eventlog_extends w ws h :
  exists more, snd (Install_eventlog w ws h) = h ++ more.
Proof.
  unfold Install_eventlog. run.
  destruct (w_err w h _) as [err |]; [destruct (negb _) |]; cbn [snd];
    rewrite <- ?app_assoc; eexists; reflexivity.
Qed.



(** X16.  A failure to set the recovery actions is returned as it is,
    after the entry has been created: Install then neither deletes the
    entry nor closes its handle, and does not register the event-log
    source. *)
Theorem Install_keeps_entry_when_recovery_fails w ws h exepath h3 err :
  reaches_creation w ws h exepath h3 ->
  let opened := h3 ++ [MgrOpenService (Name (cfg ws))] in
  w_err w opened (create_call ws exepath) = None ->
  kv_string (Option (cfg ws)) OnFailure "" <> ""%string ->
  w_err w (opened ++ [create_call ws exepath]) (recovery_call w ws) = Some err ->
  Install w ws h
  = (Some err, opened ++ [create_call ws exepath; recovery_call w ws; MgrDisconnect])
  /\ calls is_SvcDelete (snd (Install w ws h)) = calls is_SvcDelete h3
  /\ calls is_SvcClose (snd (Install w ws h)) = calls is_SvcClose h3
  /\ calls is_EventlogInstall (snd (Install w ws h)) = calls is_EventlogInstall h3.
Proof.
  intros (Hx & Hm & Henv & Hopen) opened Hc Hon Hr.
  assert (Hrun : Install w ws h
                 = (Some err,
                    opened ++ [create_call ws exepath; recovery_call w ws; MgrDisconnect])).
  { rewrite (Install_run w ws h exepath Hx Hm). cbv zeta.
    rewrite (Install_create_run w ws exepath _ h3 Henv Hopen). cbv zeta. fold opened.
    rewrite Hc. apply String.eqb_neq in Hon. rewrite Hon. cbn [negb fst snd].
    rewrite Hr, <- app_assoc. reflexivity. }
  rewrite Hrun. split; [reflexivity |]. cbn [snd]. unfold opened.
  rewrite !calls_app. cbn. repeat split; lia.
Qed.

Lemma Install_keeps_entry_when_recovery_fails_witness :
  let ws := configured [("OnFailure", "restart")]%string [] in
  let w := refusing is_SetRecoveryActions (Errno 5 "Access is denied.") in
  fst (Install w ws []) = Some (Errno 5 "Access is denied.")
  /\ calls is_CreateService (snd (Install w ws [])) = 1%nat
  /\ calls is_SvcDelete (snd (Install w ws [])) = 0%nat
  /\ calls is_SvcClose (snd (Install w ws [])) = 0%nat.
Proof.
  intros ws w.
  destruct (Install_keeps_entry_when_recovery_fails w ws [] "C:\agent\agent.exe"%string
              [ExecPath; MgrConnect] (Errno 5 "Access is denied."))
    as (Hrun & Hd & Hc & _);
    [repeat split; discriminate | reflexivity | discriminate | reflexivity |].
  rewrite Hrun. split; [reflexivity |]. split; [reflexivity |].
  rewrite <- Hrun, Hd, Hc. split; reflexivity.
Defined.

(** X17.  The entry Install creates starts automatically unless the
    StartType option says "manual" or "disabled"; any other value of
    the option gives start type 0, not one of the three.  It is an
    own-process service, interactive as well when the Interactive
    option is set. *)
Theorem Install_start_type w ws h exepath h3 :
  reaches_creation w ws h exepath h3 ->
  let st := kv_string (Option (cfg ws)) StartType ServiceStartAutomatic in
  let c := create_config ws in
  In (CreateService (Name (cfg ws)) exepath c (Arguments (cfg ws))) (snd (Install w ws h))
  /\ (st = "automatic"%string -> mgr.StartType c = mgr.StartAutomatic)
  /\ (st = "manual"%string -> mgr.StartType c = mgr.StartManual)
  /\ (st = "disabled"%string -> mgr.StartType c = mgr.StartDisabled)
  /\ (st <> "automatic"%string -> st <> "manual"%string -> st <> "disabled"%string ->
      mgr.StartType c = 0)
  /\ mgr.ServiceType c
     = (if kv_bool (Option (cfg ws)) "Interactive" false then 272 else 16).
Proof.
  intros (Hx & Hm & Henv & Hopen) st c. split.
  - rewrite (Install_run w ws h exepath Hx Hm). cbv zeta.
    rewrite (Install_create_run w ws exepath _ h3 Henv Hopen). cbv zeta.
    fold (create_call ws exepath).
    change (CreateService (Name (cfg ws)) exepath c (Arguments (cfg ws)))
      with (create_call ws exepath).
    destruct (w_err w _ (create_call ws exepath)); cbn [fst snd].
    { rewrite !in_app_iff. cbn [In]. auto 10. }
    destruct (negb _); cbn [fst snd].
    + destruct (w_err w _ (recovery_call w ws)); cbn [fst snd].
      * rewrite !in_app_iff. cbn [In]. auto 10.
      * destruct (Install_eventlog_extends w ws
                    ((h3 ++ [MgrOpenService (Name (cfg ws))])
                       ++ [create_call ws exepath; recovery_call w ws])) as (m & ->).
        rewrite !in_app_iff. cbn [In]. auto 10.
    + destruct (Install_eventlog_extends w ws
                  ((h3 ++ [MgrOpenService (Name (cfg ws))]) ++ [create_call ws exepath]))
        as (m & ->).
      rewrite !in_app_iff. cbn [In]. auto 10.
  - subst c. unfold create_config. fold st. cbn [mgr.StartType mgr.ServiceType].
    split; [intros ->; reflexivity |].
    split; [intros ->; reflexivity |].
    split; [intros ->; reflexivity |].
    split; [| destruct (kv_bool _ _ _); reflexivity].
    intros H1 H2 H3.
    apply String.eqb_neq in H1, H2, H3.
    unfold ServiceStartAutomatic, ServiceStartManual, ServiceStartDisabled.
    rewrite H1, H2, H3. reflexivity.
Qed.

Lemma Install_start_type_witness :
  let ws := configured [("StartType", "Manual")]%string [] in
  reaches_creation (fresh_host None) ws [] "C:\agent\agent.exe" [ExecPath; MgrConnect]
  /\ mgr.StartType (create_config ws) = 0
  /\ In (create_call ws "C:\agent\agent.exe") (snd (Install (fresh_host None) ws [])).
Proof.
  intros ws.
  assert (Hreach : reaches_creation (fresh_host None) ws [] "C:\agent\agent.exe"
                     [ExecPath; MgrConnect])
    by (repeat split; discriminate).
  destruct (Install_start_type (fresh_host None) ws [] "C:\agent\agent.exe"%string
              [ExecPath; MgrConnect] Hreach) as (Hin & _ & _ & _ & Hother & _).
  split; [exact Hreach |]. split; [apply Hother; discriminate | exact Hin].
Defined.

Lemma registry_calls_only (p : Call -> bool) m :
  forallb is_registry_call m = true ->
  (forall c, is_registry_call c = true -> p c = false) ->
  calls p m = 0%nat.
Proof.
  intros Hm Hp. induction m as [| c m IH]; [reflexivity |].
  cbn [forallb] in Hm. apply andb_true_iff in Hm. destruct Hm as [Hc Hm].
  change (c :: m) with ([c] ++ m). rewrite calls_app, calls_one, (Hp c Hc), (IH Hm).
  reflexivity.
Qed.

Lemma setEnvironmentVariablesInRegistry_extends w ws h :
  exists m,
    snd (setEnvironmentVariablesInRegistry w ws h) = h ++ m
    /\ forallb is_registry_call m = true.
Proof.
  rewrite setEnvironmentVariablesInRegistry_run.
  destruct (EnvVars (cfg ws)).
  { exists []. rewrite app_nil_r. split; reflexivity. }
  destruct (w_err w h _); [eexists; split; reflexivity |].
  destruct (w_err w _ (RegSetStringsValue _ _)); [eexists; split; reflexivity |].
  destruct (w_err w _ RegKeyClose); eexists; split; reflexivity.
Qed.

Lemma Install_create_shape w ws exepath h :
  exists m,
    snd (Install_create w ws exepath h) = h ++ m
    /\ (calls is_CreateService m <= 1)%nat
    /\ calls is_EventlogInstall m = 0%nat
    /\ calls is_SvcDelete m = 0%nat
    /\ (fst (Install_create w ws exepath h) = None -> calls is_CreateService m = 1%nat).
Proof.
  destruct (setEnvironmentVariablesInRegistry_extends w ws h) as (m0 & Hm0 & Hreg).
  assert (R : forall p, (forall c, is_registry_call c = true -> p c = false) ->
                        calls p m0 = 0%nat)
    by (intros p; apply registry_calls_only; exact Hreg).
  assert (R1 := R is_CreateService ltac:(intros c Hc; destruct c; (discriminate Hc || reflexivity))).
  assert (R2 := R is_EventlogInstall ltac:(intros c Hc; destruct c; (discriminate Hc || reflexivity))).
  assert (R3 := R is_SvcDelete ltac:(intros c Hc; destruct c; (discriminate Hc || reflexivity))).
  destruct (setEnvironmentVariablesInRegistry w ws h) as [[err |] h3] eqn:Henv;
    cbn [snd] in Hm0; subst h3.
  { assert (Hrun : Install_create w ws exepath h = (Some err, h ++ m0)).
    { unfold Install_create. unfold bind at 1. rewrite Henv. reflexivity. }
    rewrite Hrun. exists m0. cbn [fst snd]. repeat split; try lia; congruence. }
  destruct (w_err w (h ++ m0) (MgrOpenService (Name (cfg ws)))) as [e |] eqn:Hopen.
  - rewrite (Install_create_run w ws exepath h (h ++ m0) Henv) by congruence.
    cbv zeta.
    destruct (w_err w _ (create_call ws exepath)); cbn [fst snd].
    { rewrite <- !app_assoc. eexists. split; [reflexivity |].
      rewrite !calls_app, R1, R2, R3. cbn. repeat split; try lia; congruence. }
    destruct (negb _); cbn [fst snd]; rewrite <- !app_assoc; eexists;
      (split; [reflexivity |]); rewrite !calls_app, R1, R2, R3; cbn;
      repeat split; lia.
  - assert (Hrun : Install_create w ws exepath h
                   = (Some (ErrorString
                              ("service " ++ Name (cfg ws) ++ " already exists")%string),
                      h ++ m0 ++ [MgrOpenService (Name (cfg ws)); SvcClose])).
    { unfold Install_create. unfold bind at 1. rewrite Henv. run. rewrite Hopen.
      rewrite <- !app_assoc. reflexivity. }
    rewrite Hrun. cbn [fst snd]. eexists. split; [reflexivity |].
    rewrite !calls_app, R1, R2, R3. cbn. repeat split; try lia; congruence.
Qed.

Lemma Install_eventlog_shape w ws h :
  exists m,
    snd (Install_eventlog w ws h) = h ++ m
    /\ calls is_CreateService m = 0%nat
    /\ calls is_EventlogInstall m = 1%nat
    /\ calls is_SvcDelete m
       = match fst (Install_eventlog w ws h) with None => 0%nat | Some _ => 1%nat end.
Proof.
  unfold Install_eventlog. run.
  destruct (w_err w h _) as [err |]; [destruct (negb _) |]; cbn [fst snd];
    rewrite <- ?app_assoc; eexists; (split; [reflexivity |]); repeat split.
Qed.

(** X18.  In any run of Install the entry is created at most once, the
    event-log source is registered only after the entry was created,
    and the entry is deleted only after that registration was tried.
    Install returns nil only when it created the entry and tried the
    registration without deleting; whenever it deleted, it returns an
    error. *)
Theorem Install_nil_means_created w ws h :
  exists more,
    snd (Install w ws h) = h ++ more
    /\ (calls is_CreateService more <= 1)%nat
    /\ (calls is_EventlogInstall more <= calls is_CreateService more)%nat
    /\ (calls is_SvcDelete more <= calls is_EventlogInstall more)%nat
    /\ (fst (Install w ws h) = None ->
        calls is_CreateService more = 1%nat
        /\ calls is_EventlogInstall more = 1%nat
        /\ calls is_SvcDelete more = 0%nat)
    /\ (calls is_SvcDelete more <> 0%nat -> fst (Install w ws h) <> None).
Proof.
  destruct (w_string w h ExecPath) as [err | exepath] eqn:Hx.
  { unfold Install. run. rewrite Hx. cbn [fst snd]. eexists. split; [reflexivity |].
    cbn. repeat split; try lia; congruence. }
  destruct (w_err w (h ++ [ExecPath]) MgrConnect) as [err |] eqn:Hm.
  { unfold Install. run. rewrite Hx, Hm. cbn [fst snd]. rewrite <- !app_assoc.
    eexists. split; [reflexivity |]. cbn. repeat split; try lia; congruence. }
  rewrite (Install_run w ws h exepath Hx Hm). cbv zeta.
  destruct (Install_create_shape w ws exepath (h ++ [ExecPath; MgrConnect]))
    as (m1 & H1 & C1 & E1 & D1 & N1).
  destruct (fst (Install_create w ws exepath (h ++ [ExecPath; MgrConnect]))) as [err |].
  - cbn [fst snd]. rewrite H1, <- !app_assoc. eexists. split; [reflexivity |].
    rewrite !calls_app, E1, D1. cbn. repeat split; try lia; congruence.
  - specialize (N1 eq_refl).
    destruct (Install_eventlog_shape w ws
                (snd (Install_create w ws exepath (h ++ [ExecPath; MgrConnect]))))
      as (m2 & H2 & C2 & E2 & D2).
    cbn [fst snd].
    remember (fst (Install_eventlog w ws
                     (snd (Install_create w ws exepath (h ++ [ExecPath; MgrConnect])))))
      as res eqn:Hres.
    clear Hres. rewrite H2, H1, <- !app_assoc. eexists. split; [reflexivity |].
    rewrite !calls_app, N1, E1, D1, C2, E2, D2.
    destruct res; cbn; repeat split; try lia; congruence.
Qed.

Lemma Install_nil_means_created_witness :
  fst (Install (fresh_host None) agent []) = None
  /\ exists more,
      snd (Install (fresh_host None) agent []) = more
      /\ calls is_CreateService more = 1%nat
      /\ calls is_SvcDelete more = 0%nat.
Proof.
  destruct (Install_nil_means_created (fresh_host None) agent [])
    as (more & Hmore & _ & _ & _ & Hnil & _).
  destruct Hnil as (Hc & _ & Hd); [reflexivity |].
  split; [reflexivity |]. exists more. split; [exact Hmore |]. split; assumption.
Defined.

(** *** Uninstall *)

Lemma Uninstall_run w ws h :
  let name := Name (cfg ws) in
  let h1 := snd (Stop w ws h) in
  fst (Stop w ws h) = None ->
  w_err w h1 MgrConnect = None ->
  Uninstall w ws h
  = match w_err w (h1 ++ [MgrConnect]) (MgrOpenService name) with
    | Some err =>
      (if isServiceDoesNotExist err then None
       else Some (ErrorString ("error open service " ++ name)%string),
       h1 ++ [MgrConnect; MgrOpenService name; MgrDisconnect])
    | None =>
      match w_err w (h1 ++ [MgrConnect; MgrOpenService name]) SvcDelete with
      | Some err =>
        (Some err, h1 ++ [MgrConnect; MgrOpenService name; SvcDelete; SvcClose; MgrDisconnect])
      | None =>
        let h2 := h1 ++ [MgrConnect; MgrOpenService name; SvcDelete; EventlogRemove name] in
        match w_err w (h1 ++ [MgrConnect; MgrOpenService name; SvcDelete])
                    (EventlogRemove name) with
        | Some err =>
          if is_ERROR_FILE_NOT_FOUND err then
            (fst (uninstallWait w ws h2),
             snd (uninstallWait w ws h2) ++ [SvcClose; MgrDisconnect])
          else
            (Some (ErrorString ("RemoveEventLogSource() failed: " ++ Error err)%string),
             h2 ++ [SvcClose; MgrDisconnect])
        | None =>
          (fst (uninstallWait w ws h2),
           snd (uninstallWait w ws h2) ++ [SvcClose; MgrDisconnect])
        end
      end
    end.
Proof.
  intros name h1 Hstop Hc. subst h1.
  unfold Uninstall. unfold bind at 1.
  destruct (Stop w ws h) as [e hs]. cbn [fst snd] in *. subst e.
  run. fold name. rewrite Hc.
  destruct (w_err w (hs ++ [MgrConnect]) (MgrOpenService name)) as [err |].
  { destruct (isServiceDoesNotExist err); cbn [fst snd]; rewrite <- !app_assoc;
      reflexivity. }
  rewrite <- (app_assoc hs [MgrConnect] [MgrOpenService name]). cbn [app].
  destruct (w_err w _ SvcDelete) as [err |].
  { cbn [fst snd]. rewrite <- !app_assoc. reflexivity. }
  rewrite <- (app_assoc hs [MgrConnect; MgrOpenService name] [SvcDelete]). cbn [app].
  cbv zeta.
  rewrite <- (app_assoc hs [MgrConnect; MgrOpenService name; SvcDelete]
                [EventlogRemove name]). cbn [app].
  destruct (w_err w _ (EventlogRemove name)) as [err |].
  - destruct (is_ERROR_FILE_NOT_FOUND err); cbn [negb].
    + destruct (uninstallWait w ws _). cbn [fst snd]. rewrite <- !app_assoc. reflexivity.
    + cbn [fst snd]. rewrite <- !app_assoc. reflexivity.
  - destruct (uninstallWait w ws _). cbn [fst snd]. rewrite <- !app_assoc. reflexivity.
Qed.

(** X19.  After a [Stop] that succeeded and a connection to the
    manager: when the entry is no longer there, Uninstall returns nil
    without deleting or waiting; any other failure to open it gives the
    open error of Uninstall; a failed delete is returned as it is, with
    no event-log removal and no wait; and a failed event-log removal,
    other than file-not-found, is returned after the entry has been
    deleted, with no wait. *)
Theorem Uninstall_early_exits w ws h :
  let name := Name (cfg ws) in
  let h1 := snd (Stop w ws h) in
  fst (Stop w ws h) = None ->
  w_err w h1 MgrConnect = None ->
  (forall err,
      w_err w (h1 ++ [MgrConnect]) (MgrOpenService name) = Some err ->
      Uninstall w ws h
      = (if isServiceDoesNotExist err then None
         else Some (ErrorString ("error open service " ++ name)%string),
         h1 ++ [MgrConnect; MgrOpenService name; MgrDisconnect]))
  /\ (forall err,
         w_err w (h1 ++ [MgrConnect]) (MgrOpenService name) = None ->
         w_err w (h1 ++ [MgrConnect; MgrOpenService name]) SvcDelete = Some err ->
         Uninstall w ws h
         = (Some err,
            h1 ++ [MgrConnect; MgrOpenService name; SvcDelete; SvcClose; MgrDisconnect]))
  /\ (forall err,
         w_err w (h1 ++ [MgrConnect]) (MgrOpenService name) = None ->
         w_err w (h1 ++ [MgrConnect; MgrOpenService name]) SvcDelete = None ->
         w_err w (h1 ++ [MgrConnect; MgrOpenService name; SvcDelete])
               (EventlogRemove name) = Some err ->
         is_ERROR_FILE_NOT_FOUND err = false ->
         Uninstall w ws h
         = (Some (ErrorString ("RemoveEventLogSource() failed: " ++ Error err)%string),
            h1 ++ [MgrConnect; MgrOpenService name; SvcDelete; EventlogRemove name;
                   SvcClose; MgrDisconnect])).
Proof.
  intros name h1 Hstop Hc.
  assert (Hrun := Uninstall_run w ws h Hstop Hc). cbv zeta in Hrun.
  fold name in Hrun. fold h1 in Hrun.
  split; [| split].
  - intros err Ho. rewrite Hrun, Ho. reflexivity.
  - intros err Ho Hd. rewrite Hrun, Ho, Hd. reflexivity.
  - intros err Ho Hd Hr Hfnf. rewrite Hrun, Ho, Hd, Hr, Hfnf.
    rewrite <- app_assoc. reflexivity.
Qed.

Lemma Uninstall_early_exits_witness :
  let gone := Errno 1060 "The specified service does not exist as an installed service." in
  let w := installed_refusing is_MgrOpenService gone in
  fst (Uninstall w agent []) = None
  /\ calls is_SvcDelete (snd (Uninstall w agent [])) = 0%nat
  /\ calls is_TickC (snd (Uninstall w agent [])) = 0%nat.
Proof.
  intros gone w.
  destruct (Uninstall_early_exits w agent []) as (Hgone & _); [reflexivity .. |].
  rewrite (Hgone gone) by reflexivity. repeat split.
Defined.




Lemma uninstallWait_loop_first w ws n h :
  exists more,
    snd (uninstallWait_loop w ws n h) = h ++ more
    /\ (n = 0%nat ->
        uninstallWait_loop w ws n h = (Some (delete_timeout_error ws), h ++ [TimeoutC]))
    /\ (n <> 0%nat ->
        exists more', more = TickC :: MgrOpenService (Name (cfg ws)) :: more').
Proof.
  destruct n as [| n].
  - exists [TimeoutC]. split; [reflexivity |]. split; [reflexivity | contradiction].
  - cbn [uninstallWait_loop]. run.
    destruct (w_err w (h ++ [TickC]) (MgrOpenService (Name (cfg ws)))) as [err |].
    + destruct (isServiceDoesNotExist err); cbn [snd]; rewrite <- !app_assoc;
        eexists; (split; [reflexivity |]); (split; [discriminate |]);
        intros _; eexists; reflexivity.
    + destruct (uninstallWait_loop_polls w ws n
                  (((h ++ [TickC]) ++ [MgrOpenService (Name (cfg ws))]) ++ [SvcClose]))
        as (m & Hm & _).
      rewrite Hm, <- !app_assoc. eexists. split; [reflexivity |].
      split; [discriminate |]. intros _. eexists; reflexivity.
Qed.

(** X22.  The uninstall wait has no check before its first tick: it
    never succeeds without having taken a tick and opened the entry,
    and when the timeout wins before any tick it fails without a single
    open. *)
Theorem uninstallWait_takes_a_tick w ws h :
  exists more,
    snd (uninstallWait w ws h) = h ++ more
    /\ (fst (uninstallWait w ws h) = None ->
        (1 <= calls is_TickC more)%nat /\ (1 <= calls is_MgrOpenService more)%nat)
    /\ (calls is_TickC more = 0%nat ->
        fst (uninstallWait w ws h) = Some (delete_timeout_error ws)
        /\ calls is_MgrOpenService more = 0%nat).
Proof.
  unfold uninstallWait. rewrite with_timer_run. cbv zeta. cbn [fst snd].
  destruct (getStopTimeout_extends w h) as (m1 & H1 & Hreg & _).
  assert (R1 : calls is_TickC m1 = 0%nat)
    by (apply registry_calls_only;
        [exact Hreg | intros c Hc; destruct c; (discriminate Hc || reflexivity)]).
  assert (R2 : calls is_MgrOpenService m1 = 0%nat)
    by (apply registry_calls_only;
        [exact Hreg | intros c Hc; destruct c; (discriminate Hc || reflexivity)]).
  rewrite H1.
  match goal with
  | |- context [uninstallWait_loop w ws ?n ?hh] =>
    remember n as ticks eqn:Hn; remember hh as h2 eqn:Hh2; clear Hn
  end.
  destruct (uninstallWait_loop_first w ws ticks h2) as (m2 & H2 & Hzero & Hpos).
  rewrite H2, Hh2, <- !app_assoc. eexists. split; [reflexivity |].
  rewrite !calls_app, R1, R2.
  destruct ticks as [| n].
  - rewrite (Hzero eq_refl) in *. cbn [fst snd] in *. apply app_inv_head in H2. subst m2.
    split; [discriminate |]. intros _. split; reflexivity.
  - destruct Hpos as (m' & ->); [discriminate |].
    change (TickC :: MgrOpenService (Name (cfg ws)) :: m')
      with ([TickC; MgrOpenService (Name (cfg ws))] ++ m').
    rewrite !calls_app. cbn. split; [intros _; lia | intros Hz; lia].
Qed.

Lemma uninstallWait_takes_a_tick_witness :
  exists more,
    snd (uninstallWait (entry_gone_after 0) agent [SvcDelete]) = [SvcDelete] ++ more
    /\ fst (uninstallWait (entry_gone_after 0) agent [SvcDelete]) = None
    /\ (1 <= calls is_TickC more)%nat.
Proof.
  destruct (uninstallWait_takes_a_tick (entry_gone_after 0) agent [SvcDelete])
    as (more & Hmore & Hnone & _).
  exists more. split; [exact Hmore |]. split; [reflexivity |].
  apply Hnone. reflexivity.
Defined.
